(** * Whirlpool washer/dryer sensors

    A shallow embedding of [custom_components/whirlpool/sensor.py]: the
    state classifier [washer_state], the tank-level lookup of [SENSORS],
    the completion-time sensor [WasherDryerTimeClass], the entity
    constructors, [AirConSensor] and the platform setup
    [async_setup_entry].

    Conventions of the embedding.
    - A Python [dict] literal is a [gmap] built from its items, and
      [d.get(k)] is the lookup [d !! k] ([None] when the key is missing).
    - The appliance object ([whirlpool.washerdryer.WasherDryer]) is an
      external collaborator; it is represented by the answers of the
      methods the sensors call on it.
    - An instant (a timezone-aware UTC [datetime]) is an integer count of
      microseconds since the epoch and a [timedelta] is an integer number
      of microseconds; building a [timedelta] and adding it to a
      [datetime] raise [OverflowError] outside Python's ranges.
    - A method that mutates [self] is a computation in a small
      state-and-exception monad; the mutations made before an exception
      is raised persist, as they do in Python. *)

From Stdlib Require Import ZArith Lia Ascii.
From stdpp Require Import base option strings list gmap.

Local Open Scope Z_scope.

(** ** The appliance interface *)

(** [whirlpool.washerdryer.MachineState]: the members named by the
    [MACHINE_STATE] table. *)
Inductive MachineState : Set :=
  | Standby | Setting | DelayCountdownMode | DelayPause | SmartDelay
  | SmartGridPause | Pause | RunningMainCycle | RunningPostCycle
  | Exceptions | Complete | PowerFailure | ServiceDiagnostic
  | FactoryDiagnostic | LifeTest | CustomerFocusMode | DemoMode
  | HardStopOrError | SystemInit.

#[global] Instance MachineState_eq_dec : EqDecision MachineState.
Proof. solve_decision. Defined.

Definition MachineState_members : list MachineState :=
  [ Standby; Setting; DelayCountdownMode; DelayPause; SmartDelay;
    SmartGridPause; Pause; RunningMainCycle; RunningPostCycle;
    Exceptions; Complete; PowerFailure; ServiceDiagnostic;
    FactoryDiagnostic; LifeTest; CustomerFocusMode; DemoMode;
    HardStopOrError; SystemInit ].

Definition MachineState_position (m : MachineState) : nat :=
  match m with
  | Standby => 0 | Setting => 1 | DelayCountdownMode => 2 | DelayPause => 3
  | SmartDelay => 4 | SmartGridPause => 5 | Pause => 6
  | RunningMainCycle => 7 | RunningPostCycle => 8 | Exceptions => 9
  | Complete => 10 | PowerFailure => 11 | ServiceDiagnostic => 12
  | FactoryDiagnostic => 13 | LifeTest => 14 | CustomerFocusMode => 15
  | DemoMode => 16 | HardStopOrError => 17 | SystemInit => 18
  end%nat.

#[global] Instance MachineState_countable : Countable MachineState.
Proof.
  refine (inj_countable MachineState_position
                        (λ n, MachineState_members !! n) _).
  intros m. destruct m; reflexivity.
Defined.

(** The [.value] of each enum member.  The numbers are declared in the
    [whirlpool] package, not in this repository, so they are a parameter;
    distinct members of a Python [Enum] have distinct values. *)
Class MachineStateValues := {
  value : MachineState → Z;
  value_inj : ∀ a b, value a = value b → a = b
}.

(** What a [WasherDryer] answers to the calls made by the sensors:
    [get_attribute key] ([None] when the appliance reports no such
    attribute), [get_machine_state()] ([None] when the appliance reports a
    state that is no [MachineState] member) and the six
    [get_cycle_status_*()] flags. *)
Record WasherDryer := {
  attributes : gmap string string;
  get_machine_state : option MachineState;
  get_cycle_status_filling : bool;
  get_cycle_status_rinsing : bool;
  get_cycle_status_sensing : bool;
  get_cycle_status_soaking : bool;
  get_cycle_status_spinning : bool;
  get_cycle_status_washing : bool
}.

Definition get_attribute (wd : WasherDryer) (attribute : string) : option string :=
  attributes wd !! attribute.

(** ** Lookup tables *)

Definition TANK_FILL_items : list (string * string) :=
  [ ("0", "unknown");
    ("1", "empty");
    ("2", "25");
    ("3", "50");
    ("4", "100");
    ("5", "active") ].

Definition TANK_FILL : gmap string string := list_to_map TANK_FILL_items.

Definition MACHINE_STATE_items : list (MachineState * string) :=
  [ (Standby, "standby");
    (Setting, "setting");
    (DelayCountdownMode, "delay_countdown");
    (DelayPause, "delay_paused");
    (SmartDelay, "smart_delay");
    (SmartGridPause, "smart_grid_pause");
    (Pause, "pause");
    (RunningMainCycle, "running_maincycle");
    (RunningPostCycle, "running_postcycle");
    (Exceptions, "exception");
    (Complete, "complete");
    (PowerFailure, "power_failure");
    (ServiceDiagnostic, "service_diagnostic_mode");
    (FactoryDiagnostic, "factory_diagnostic_mode");
    (LifeTest, "life_test");
    (CustomerFocusMode, "customer_focus_mode");
    (DemoMode, "demo_mode");
    (HardStopOrError, "hard_stop_or_error");
    (SystemInit, "system_initialize") ].

Definition MACHINE_STATE : gmap MachineState string :=
  list_to_map MACHINE_STATE_items.

(** [d.get(key)] where [key] may be Python's [None], which is a key of
    neither table. *)
Definition dict_get {K} `{Countable K} (d : gmap K string) (key : option K)
  : option string :=
  key ≫= λ k, d !! k.

(** [list(d.values())], in the order of the literal. *)
Definition dict_values {K} (items : list (K * string)) : list string :=
  items.*2.

(** ** The state classifier *)

Definition CYCLE_FUNC : list ((WasherDryer → bool) * string) :=
  [ (get_cycle_status_filling, "cycle_filling");
    (get_cycle_status_rinsing, "cycle_rinsing");
    (get_cycle_status_sensing, "cycle_sensing");
    (get_cycle_status_soaking, "cycle_soaking");
    (get_cycle_status_spinning, "cycle_spinning");
    (get_cycle_status_washing, "cycle_washing") ].

(** The [for func, cycle_name in CYCLE_FUNC] loop: [Some] label when the
    loop body returns, [None] when the loop runs to its end. *)
Fixpoint cycle_loop (funcs : list ((WasherDryer → bool) * string))
                    (washer : WasherDryer) : option string :=
  match funcs with
  | [] => None
  | (func, cycle_name) :: rest =>
      if func washer then Some cycle_name else cycle_loop rest washer
  end.

Definition washer_state (washer : WasherDryer) : option string :=
  let DOOR_OPEN := "door_open" in
  if bool_decide (get_attribute washer "Cavity_OpStatusDoorOpen" = Some "1")
  then Some DOOR_OPEN
  else
    let machine_state := get_machine_state washer in
    let returned :=
      if bool_decide (machine_state = Some RunningMainCycle)
      then cycle_loop CYCLE_FUNC washer
      else None in
    match returned with
    | Some cycle_name => Some cycle_name
    | None => dict_get MACHINE_STATE machine_state
    end.

(** ** Sensor descriptions *)

Record WhirlpoolSensorEntityDescription := {
  key : string;
  translation_key : string;
  options : list string;
  value_fn : WasherDryer → option string
}.

(** The [value_fn] lambda of the [DispenseLevel] description. *)
Definition tank_value_fn (wd : WasherDryer) : option string :=
  dict_get TANK_FILL (get_attribute wd "WashCavity_OpStatusBulkDispense1Level").

Definition SENSORS : list WhirlpoolSensorEntityDescription :=
  [ {| key := "state";
       translation_key := "whirlpool_machine";
       options := dict_values MACHINE_STATE_items
                  ++ [ "cycle_filling"; "cycle_rinsing"; "cycle_sensing";
                       "cycle_soaking"; "cycle_spinning"; "cycle_washing";
                       "door_open" ];
       value_fn := washer_state |};
    {| key := "DispenseLevel";
       translation_key := "whirlpool_tank";
       options := dict_values TANK_FILL_items;
       value_fn := tank_value_fn |} ].

Module WasherDryerClass.

Definition native_value (entity_description : WhirlpoolSensorEntityDescription)
                        (_wd : WasherDryer) : option string :=
  value_fn entity_description _wd.

End WasherDryerClass.

(** ** Python values used by the timestamp sensor *)

Inductive PyExn : Set := TypeError | ValueError | AttributeError | OverflowError.

#[global] Instance PyExn_eq_dec : EqDecision PyExn.
Proof. solve_decision. Defined.

Inductive Outcome (A : Type) : Type :=
  | Ok (a : A)
  | Raise (e : PyExn).
Arguments Ok {A} a.
Arguments Raise {A} e.

(** [int(text)] for a [str] in base 10: optional surrounding whitespace
    (tab, line feed, vertical tab, form feed, carriage return, space), an
    optional sign, then decimal digits in which single underscores may
    separate digits; CPython refuses a literal of more than 4300 digits.
    Attribute texts are taken to be ASCII. *)
Definition is_space (c : ascii) : bool :=
  let n := N_of_ascii c in
  ((9 <=? n) && (n <=? 13) || (n =? 32))%N.

Definition digit_of (c : ascii) : option Z :=
  let n := N_of_ascii c in
  if ((48 <=? n) && (n <=? 57))%N then Some (Z.of_N n - 48) else None.

Fixpoint lstrip (cs : list ascii) : list ascii :=
  match cs with
  | c :: rest => if is_space c then lstrip rest else cs
  | [] => []
  end.

Definition strip (cs : list ascii) : list ascii :=
  reverse (lstrip (reverse (lstrip cs))).

(** [after_digit] tells whether the previous character was a digit, which
    is where an underscore or the end of the text is allowed. *)
Fixpoint digits (acc : Z) (after_digit : bool) (cs : list ascii) : option Z :=
  match cs with
  | [] => if after_digit then Some acc else None
  | c :: rest =>
      match digit_of c with
      | Some d => digits (10 * acc + d) true rest
      | None =>
          if bool_decide (c = "_"%char) && after_digit
          then digits acc false rest
          else None
      end
  end.

Definition MAX_STR_DIGITS : nat := 4300.

Definition count_digits (cs : list ascii) : nat :=
  length (List.filter (λ c, bool_decide (is_Some (digit_of c))) cs).

Definition signed_digits (negative : bool) (cs : list ascii) : option Z :=
  if bool_decide (MAX_STR_DIGITS < count_digits cs)%nat then None
  else (if negative then Z.opp else id) <$> digits 0 false cs.

Definition int_of_str (text : string) : option Z :=
  match strip (String.list_ascii_of_string text) with
  | "-"%char :: rest => signed_digits true rest
  | "+"%char :: rest => signed_digits false rest
  | cs => signed_digits false cs
  end.

(** [int(x)] where [x] is what [get_attribute] returned: [None] is a
    [TypeError], a text that is no integer literal is a [ValueError]. *)
Definition py_int (x : option string) : Outcome Z :=
  match x with
  | None => Raise TypeError
  | Some text =>
      match int_of_str text with
      | Some n => Ok n
      | None => Raise ValueError
      end
  end.

(** The text consists of ASCII characters only.  [int_of_str] follows
    Python's [int] on such texts; a text with other characters (digits and
    spaces of other scripts, which [int] also accepts) is outside what it
    describes. *)
Definition is_ascii (text : string) : bool :=
  forallb (λ c, (N_of_ascii c <? 128)%N) (String.list_ascii_of_string text).

(** A whole number of seconds, in microseconds. *)
Definition seconds (n : Z) : Z := n * 1000000.

(** [timedelta.min] and [timedelta.max]: 999999999 days either way. *)
Definition timedelta_min : Z := seconds (-999999999 * 86400).
Definition timedelta_max : Z := seconds (999999999 * 86400 + 86399) + 999999.

(** [datetime.min] (0001-01-01T00:00:00) and [datetime.max]
    (9999-12-31T23:59:59.999999), counted from 1970-01-01T00:00:00. *)
Definition datetime_min : Z := seconds (-62135596800).
Definition datetime_max : Z := seconds 253402300799 + 999999.

(** [timedelta(seconds=n)]. *)
Definition timedelta (n : Z) : Outcome Z :=
  if bool_decide (timedelta_min ≤ seconds n ≤ timedelta_max)
  then Ok (seconds n) else Raise OverflowError.

(** [instant + delta] on a [datetime]. *)
Definition datetime_add (instant delta : Z) : Outcome Z :=
  if bool_decide (datetime_min ≤ instant + delta ≤ datetime_max)
  then Ok (instant + delta) else Raise OverflowError.

(** A value a sensor can hold in [_attr_native_value] besides [None]: a
    [datetime], or a value of another type (text, number, date). *)
Inductive StateValue : Type :=
  | Datetime (instant : Z)
  | NotDatetime (repr : string).

#[global] Instance StateValue_eq_dec : EqDecision StateValue.
Proof. solve_decision. Defined.

(** Truth value of [self._running : bool | None]. *)
Definition truthy (b : option bool) : bool :=
  match b with
  | Some true => true
  | _ => false
  end.

(** ** The timestamp sensor *)

Module WasherDryerTimeClass.

(** What [async_get_last_sensor_data] yields when something was stored. *)
Record SensorExtraStoredData := {
  native_value : option StateValue;
  native_unit_of_measurement : option string
}.

(** The fields of [self] that the methods below touch, together with the
    two places outside [self] that they act on: the states handed to the
    host by [_async_write_ha_state] (oldest first), and whether
    [update_from_latest_data] is registered with the appliance. *)
Record Sensor := {
  _running : option bool;
  _attr_native_value : option StateValue;
  written : list (option StateValue);
  registered : bool
}.

Definition M (A : Type) : Type := Sensor → Outcome A * Sensor.

#[global] Instance M_ret : MRet M := λ A a self, (Ok a, self).

#[global] Instance M_bind : MBind M := λ A B k c self,
  match c self with
  | (Ok a, self') => k a self'
  | (Raise e, self') => (Raise e, self')
  end.

Definition lift {A} (o : Outcome A) : M A := λ self, (o, self).

Definition read {A} (field : Sensor → A) : M A := λ self, (Ok (field self), self).

Definition set_running (b : option bool) : M unit := λ self,
  (Ok (), {| _running := b;
             _attr_native_value := _attr_native_value self;
             written := written self;
             registered := registered self |}).

Definition set_attr_native_value (v : option StateValue) : M unit := λ self,
  (Ok (), {| _running := _running self;
             _attr_native_value := v;
             written := written self;
             registered := registered self |}).

Definition set_registered (b : bool) : M unit := λ self,
  (Ok (), {| _running := _running self;
             _attr_native_value := _attr_native_value self;
             written := written self;
             registered := b |}).

(** The host records the sensor's current value. *)
Definition _async_write_ha_state : M unit := λ self,
  (Ok (), {| _running := _running self;
             _attr_native_value := _attr_native_value self;
             written := written self ++ [_attr_native_value self];
             registered := registered self |}).

(** An [if] without [else]. *)
Definition when (b : bool) (c : M unit) : M unit :=
  if b then c else mret ().

Definition __init__ : Sensor :=
  {| _running := None;
     _attr_native_value := None;
     written := [];
     registered := false |}.

(** [restored_data] is the answer of [async_get_last_sensor_data]; a
    stored-data object is always true as a condition.  The call to the
    superclass method touches none of the fields of [Sensor]. *)
Definition async_added_to_hass (restored_data : option SensorExtraStoredData)
  : M unit :=
  match restored_data with
  | Some data => set_attr_native_value (native_value data)
  | None => mret ()
  end;;
  set_registered true.

Definition async_will_remove_from_hass : M unit :=
  set_registered false.

(** [machine_state.value]: an [AttributeError] on [None]. *)
Definition value_of `{MachineStateValues} (machine_state : option MachineState) : M Z :=
  match machine_state with
  | Some m => mret (value m)
  | None => lift (Raise AttributeError)
  end.

(** The condition of the running update:
    [self._attr_native_value is None or (isinstance(..., datetime) and
     abs(new_timestamp - self._attr_native_value) > timedelta(seconds=60))]. *)
Definition differs_enough (current : option StateValue) (new_timestamp : Z) : bool :=
  match current with
  | None => true
  | Some (Datetime old) => bool_decide (Z.abs (new_timestamp - old) > seconds 60)
  | Some (NotDatetime _) => false
  end.

(** [now] is the reading of [utcnow()]. *)
Definition update_from_latest_data `{MachineStateValues}
    (_wd : WasherDryer) (now : Z) : M unit :=
  let machine_state := get_machine_state _wd in
  v ← value_of machine_state;
  running ← read _running;
  when (bool_decide (v ∈ ({[ value Complete; value Standby ]} : gset Z))
        && truthy running)
    (set_running (Some false);;
     set_attr_native_value (Some (Datetime now));;
     _async_write_ha_state);;
  when (bool_decide (machine_state = Some RunningMainCycle))
    (set_running (Some true);;
     remaining_seconds ←
       lift (py_int (get_attribute _wd "Cavity_TimeStatusEstTimeRemaining"));
     delta ← lift (timedelta remaining_seconds);
     new_timestamp ← lift (datetime_add now delta);
     current ← read _attr_native_value;
     when (differs_enough current new_timestamp)
       (set_attr_native_value (Some (Datetime new_timestamp));;
        _async_write_ha_state)).

(** One change notification from the appliance: the snapshot it answers
    with and the clock reading when the callback runs. *)
Record Notification := {
  snapshot : WasherDryer;
  clock : Z
}.

(** The appliance calls the callback if it is registered; an exception
    propagates to the appliance's caller and the sensor object stays as
    the callback left it. *)
Definition attr_changed `{MachineStateValues} (self : Sensor) (n : Notification)
  : Sensor :=
  if registered self
  then (update_from_latest_data (snapshot n) (clock n) self).2
  else self.

Definition deliver `{MachineStateValues} (ns : list Notification) (self : Sensor)
  : Sensor :=
  foldl attr_changed self ns.

End WasherDryerTimeClass.

Import WasherDryerTimeClass.

(** ** Vocabulary of the statements *)

Definition REMAINING : string := "Cavity_TimeStatusEstTimeRemaining".

(** The candidate [now + remaining_seconds] can be built: both the
    [timedelta] and the resulting [datetime] are within Python's ranges. *)
Definition representable (now remaining_seconds : Z) : Prop :=
  timedelta_min ≤ seconds remaining_seconds ≤ timedelta_max
  ∧ datetime_min ≤ now + seconds remaining_seconds ≤ datetime_max.

(** The candidate timestamp the running branch computes, or the
    exception that stops it. *)
Definition new_timestamp_of (wd : WasherDryer) (now : Z) : Outcome Z :=
  match py_int (get_attribute wd REMAINING) with
  | Raise e => Raise e
  | Ok remaining_seconds =>
      match timedelta remaining_seconds with
      | Raise e => Raise e
      | Ok delta => datetime_add now delta
      end
  end.

(** The sensor after the finish branch ran at clock reading [now]. *)
Definition finished_at (now : Z) (self : Sensor) : Sensor :=
  {| _running := Some false;
     _attr_native_value := Some (Datetime now);
     written := written self ++ [Some (Datetime now)];
     registered := registered self |}.

(** The sensor after the running branch stored and wrote [stamp]. *)
Definition emitted (stamp : Z) (self : Sensor) : Sensor :=
  {| _running := Some true;
     _attr_native_value := Some (Datetime stamp);
     written := written self ++ [Some (Datetime stamp)];
     registered := registered self |}.

(** The sensor after the running branch only set the flag. *)
Definition marked_running (self : Sensor) : Sensor :=
  {| _running := Some true;
     _attr_native_value := _attr_native_value self;
     written := written self;
     registered := registered self |}.

(** ** Sample data *)

(** [.value] numbers that follow the members' declaration order. *)
Definition sample_values : MachineStateValues.
Proof.
  refine {| value := λ m, Z.of_nat (MachineState_position m) |}.
  intros a b Hab. apply Nat2Z.inj in Hab.
  destruct a, b; first [reflexivity | discriminate Hab].
Defined.

Definition washer (attrs : list (string * string)) (state : option MachineState)
                  (filling rinsing sensing soaking spinning washing : bool)
  : WasherDryer :=
  {| attributes := list_to_map attrs;
     get_machine_state := state;
     get_cycle_status_filling := filling;
     get_cycle_status_rinsing := rinsing;
     get_cycle_status_sensing := sensing;
     get_cycle_status_soaking := soaking;
     get_cycle_status_spinning := spinning;
     get_cycle_status_washing := washing |}.

Definition no_flags (attrs : list (string * string)) (state : option MachineState)
  : WasherDryer :=
  washer attrs state false false false false false false.

(** A sensor in mid-cycle that last wrote the instant 100 s. *)
Definition mid_cycle : Sensor :=
  {| _running := Some true;
     _attr_native_value := Some (Datetime (seconds 100));
     written := [Some (Datetime (seconds 100))];
     registered := true |}.

(** A stored value of 2024-01-01T00:00:00Z. *)
Definition stored_2024 : SensorExtraStoredData :=
  {| native_value := Some (Datetime (seconds 1704067200));
     native_unit_of_measurement := None |}.

(** ** Vocabulary for sequences of writes *)

(** A value handed to the host is a timestamp. *)
Definition is_timestamp (v : option StateValue) : Prop :=
  ∃ t, v = Some (Datetime t).

(** Two consecutive writes are more than 60 seconds apart (when both are
    timestamps). *)
Definition far_apart (a b : option StateValue) : bool :=
  match a, b with
  | Some (Datetime x), Some (Datetime y) => bool_decide (Z.abs (y - x) > seconds 60)
  | _, _ => true
  end.

Fixpoint spaced (l : list (option StateValue)) : bool :=
  match l with
  | [] => true
  | a :: rest =>
      match rest with
      | [] => true
      | b :: _ => far_apart a b
      end && spaced rest
  end.

(** Nothing was written yet, or the sensor's value is the last one
    written. *)
Definition tracks (self : Sensor) : Prop :=
  written self = [] ∨ last (written self) = Some (_attr_native_value self).

(** ** Entities and platform setup *)

(** What the constructors take from outside this file: the integration's
    [DOMAIN] constant (declared in [const.py]) and Python's
    [str.capitalize]. *)
Class Environment := {
  DOMAIN : string;
  capitalize : string → string
}.

(** The members of the host's enumerations that the descriptions name. *)
Inductive SensorDeviceClass : Set := ENUM | TIMESTAMP | TEMPERATURE | HUMIDITY.
Inductive SensorStateClass : Set := MEASUREMENT.
Inductive UnitOfMeasurement : Set := CELSIUS | PERCENTAGE.

Module Description.

(** The fields of a [SensorEntityDescription] set by [SENSOR_TIMER] and
    [AIRCON_SENSORS]. *)
Record SensorEntityDescription := {
  key : string;
  translation_key : option string;
  name : option string;
  device_class : SensorDeviceClass;
  state_class : option SensorStateClass;
  native_unit_of_measurement : option UnitOfMeasurement
}.

End Description.

Definition SENSOR_TIMER : list Description.SensorEntityDescription :=
  [ {| Description.key := "timeremaining";
       Description.translation_key := Some "end_time";
       Description.name := None;
       Description.device_class := TIMESTAMP;
       Description.state_class := None;
       Description.native_unit_of_measurement := None |} ].

Definition AIRCON_SENSORS : list Description.SensorEntityDescription :=
  [ {| Description.key := "current_temperature";
       Description.translation_key := None;
       Description.name := Some "Current Temperature";
       Description.device_class := TEMPERATURE;
       Description.state_class := Some MEASUREMENT;
       Description.native_unit_of_measurement := Some CELSIUS |};
    {| Description.key := "current_humidity";
       Description.translation_key := None;
       Description.name := Some "Current Humidity";
       Description.device_class := HUMIDITY;
       Description.state_class := Some MEASUREMENT;
       Description.native_unit_of_measurement := Some PERCENTAGE |} ].

Module DeviceInfo.

Record DeviceInfo := {
  identifiers : gset (string * string);
  name : string;
  manufacturer : string;
  model : option string
}.

End DeviceInfo.

Module Appliance.

(** The attributes of a [WasherDryer] object that the constructors and
    [available] read; its answers to the other calls are the record
    [WasherDryer] above. *)
Record WasherDryerObject := {
  said : string;
  name : string;
  get_online : bool
}.

End Appliance.

Module Aircon.

(** An [Aircon] object; [Reading] is the type of the numbers it reports
    and [None] stands for Python's [None]. *)
Record Aircon (Reading : Type) := {
  said : string;
  name : option string;
  get_online : bool;
  get_current_temp : option Reading;
  get_current_humidity : option Reading
}.
Arguments said {Reading} _.
Arguments name {Reading} _.
Arguments get_online {Reading} _.
Arguments get_current_temp {Reading} _.
Arguments get_current_humidity {Reading} _.

End Aircon.

(** [f"{said}-{key}"]. *)
Definition unique_id_of (said key : string) : string :=
  said +:+ "-" +:+ key.

Module StateSensor.

(** What [WasherDryerClass.__init__] stores. *)
Record Fields := {
  _wd : Appliance.WasherDryerObject;
  entity_description : WhirlpoolSensorEntityDescription;
  _attr_icon : string;
  _attr_device_info : DeviceInfo.DeviceInfo;
  _attr_unique_id : string
}.

Definition __init__ `{Environment} (washer_dryer : Appliance.WasherDryerObject)
    (description : WhirlpoolSensorEntityDescription) : Fields :=
  {| _wd := washer_dryer;
     entity_description := description;
     _attr_icon := if bool_decide (Appliance.name washer_dryer = "dryer")
                   then "mdi:tumble-dryer" else "mdi:washing-machine";
     _attr_device_info :=
       {| DeviceInfo.identifiers := {[ (DOMAIN, Appliance.said washer_dryer) ]};
          DeviceInfo.name := capitalize (Appliance.name washer_dryer);
          DeviceInfo.manufacturer := "Whirlpool";
          DeviceInfo.model := None |};
     _attr_unique_id := unique_id_of (Appliance.said washer_dryer) (key description) |}.

Definition available (self : Fields) : bool := Appliance.get_online (_wd self).

End StateSensor.

Module TimeSensor.

(** What [WasherDryerTimeClass.__init__] stores; [state] holds the fields
    that the callbacks change. *)
Record Fields := {
  _wd : Appliance.WasherDryerObject;
  entity_description : Description.SensorEntityDescription;
  state : Sensor;
  _attr_icon : string;
  _attr_device_info : DeviceInfo.DeviceInfo;
  _attr_unique_id : string
}.

Definition __init__ `{Environment} (washer_dryer : Appliance.WasherDryerObject)
    (description : Description.SensorEntityDescription) : Fields :=
  {| _wd := washer_dryer;
     entity_description := description;
     state := WasherDryerTimeClass.__init__;
     _attr_device_info :=
       {| DeviceInfo.identifiers := {[ (DOMAIN, Appliance.said washer_dryer) ]};
          DeviceInfo.name := capitalize (Appliance.name washer_dryer);
          DeviceInfo.manufacturer := "Whirlpool";
          DeviceInfo.model := None |};
     _attr_unique_id :=
       unique_id_of (Appliance.said washer_dryer) (Description.key description);
     _attr_icon := if bool_decide (Appliance.name washer_dryer = "dryer")
                   then "mdi:tumble-dryer" else "mdi:washing-machine" |}.

Definition available (self : Fields) : bool := Appliance.get_online (_wd self).

End TimeSensor.

Module AirConSensor.

Record Fields (Reading : Type) := {
  entity_description : Description.SensorEntityDescription;
  _aircon : Aircon.Aircon Reading;
  _attr_unique_id : string;
  _attr_device_info : DeviceInfo.DeviceInfo
}.
Arguments entity_description {Reading} _.
Arguments _aircon {Reading} _.
Arguments _attr_unique_id {Reading} _.
Arguments _attr_device_info {Reading} _.

Definition __init__ `{Environment} {Reading} (aircon : Aircon.Aircon Reading)
    (description : Description.SensorEntityDescription) : Fields Reading :=
  {| entity_description := description;
     _aircon := aircon;
     _attr_unique_id := unique_id_of (Aircon.said aircon) (Description.key description);
     _attr_device_info :=
       {| DeviceInfo.identifiers := {[ (DOMAIN, Aircon.said aircon) ]};
          (* [aircon.name if aircon.name else aircon.said]: [None] and
             the empty text are false as a condition *)
          DeviceInfo.name := match Aircon.name aircon with
                             | Some text =>
                                 if bool_decide (text = "") then Aircon.said aircon
                                 else text
                             | None => Aircon.said aircon
                             end;
          DeviceInfo.manufacturer := "Whirlpool";
          DeviceInfo.model := Some "Sixth Sense" |} |}.

Definition available {Reading} (self : Fields Reading) : bool :=
  Aircon.get_online (_aircon self).

Definition native_value {Reading} (self : Fields Reading) : option Reading :=
  if bool_decide (Description.key (entity_description self) = "current_temperature")
  then Aircon.get_current_temp (_aircon self)
  else if bool_decide (Description.key (entity_description self) = "current_humidity")
  then Aircon.get_current_humidity (_aircon self)
  else None.

End AirConSensor.

(** An element of the [entities] list. *)
Inductive SensorEntity (Reading : Type) : Type :=
  | OfWasherDryerClass (e : StateSensor.Fields)
  | OfWasherDryerTimeClass (e : TimeSensor.Fields)
  | OfAirConSensor (e : AirConSensor.Fields Reading).
Arguments OfWasherDryerClass {Reading} e.
Arguments OfWasherDryerTimeClass {Reading} e.
Arguments OfAirConSensor {Reading} e.

Definition unique_id {Reading} (entity : SensorEntity Reading) : string :=
  match entity with
  | OfWasherDryerClass e => StateSensor._attr_unique_id e
  | OfWasherDryerTimeClass e => TimeSensor._attr_unique_id e
  | OfAirConSensor e => AirConSensor._attr_unique_id e
  end.

Definition device_info {Reading} (entity : SensorEntity Reading) : DeviceInfo.DeviceInfo :=
  match entity with
  | OfWasherDryerClass e => StateSensor._attr_device_info e
  | OfWasherDryerTimeClass e => TimeSensor._attr_device_info e
  | OfAirConSensor e => AirConSensor._attr_device_info e
  end.

(** [entities.append(x)]. *)
Definition append {A} (entities : list A) (x : A) : list A := entities ++ [x].

(** [async_setup_entry]: the list handed to [async_add_entities], for the
    washer/dryers and air conditioners of the appliances manager. *)
Definition async_setup_entry `{Environment} {Reading}
    (washer_dryers : list Appliance.WasherDryerObject)
    (aircons : list (Aircon.Aircon Reading)) : list (SensorEntity Reading) :=
  let entities := [] in
  let entities :=
    foldl (λ entities washer_dryer,
             let entities :=
               foldl (λ entities description,
                        append entities
                          (OfWasherDryerClass (StateSensor.__init__ washer_dryer description)))
                     entities SENSORS in
             foldl (λ entities description,
                      append entities
                        (OfWasherDryerTimeClass (TimeSensor.__init__ washer_dryer description)))
                   entities SENSOR_TIMER)
          entities washer_dryers in
  foldl (λ entities aircon,
           foldl (λ entities desc,
                    append entities (OfAirConSensor (AirConSensor.__init__ aircon desc)))
                 entities AIRCON_SENSORS)
        entities aircons.

(** The characters of a text. *)
Definition chars (s : string) : list ascii := String.list_ascii_of_string s.

(** The keys of all sensor descriptions. *)
Definition washer_keys : list string :=
  (key <$> SENSORS) ++ (Description.key <$> SENSOR_TIMER).

Definition aircon_keys : list string := Description.key <$> AIRCON_SENSORS.

(** Sample environment and appliances. *)
Definition sample_environment : Environment :=
  {| DOMAIN := "whirlpool"; capitalize := λ s, s |}.

Definition sample_washer : Appliance.WasherDryerObject :=
  {| Appliance.said := "WPR1"; Appliance.name := "washer"; Appliance.get_online := true |}.

Definition sample_dryer : Appliance.WasherDryerObject :=
  {| Appliance.said := "WPR2"; Appliance.name := "dryer"; Appliance.get_online := false |}.

Definition sample_aircon : Aircon.Aircon Z :=
  {| Aircon.said := "AC-1"; Aircon.name := Some "";
     Aircon.get_online := true;
     Aircon.get_current_temp := Some 21;
     Aircon.get_current_humidity := None |}.

(** The entities built for one washer/dryer and for one air conditioner. *)
Definition washer_entities `{Environment} {Reading}
    (washer_dryer : Appliance.WasherDryerObject) : list (SensorEntity Reading) :=
  ((λ d, OfWasherDryerClass (StateSensor.__init__ washer_dryer d)) <$> SENSORS)
  ++ ((λ d, OfWasherDryerTimeClass (TimeSensor.__init__ washer_dryer d)) <$> SENSOR_TIMER).

Definition aircon_entities `{Environment} {Reading}
    (aircon : Aircon.Aircon Reading) : list (SensorEntity Reading) :=
  (λ d, OfAirConSensor (AirConSensor.__init__ aircon d)) <$> AIRCON_SENSORS.

(** The unique ids built from a list of appliance ids and a list of
    description keys, appliance by appliance. *)
Definition ids_for (keys saids : list string) : list string :=
  saids ≫= λ said, unique_id_of said <$> keys.

(** ** Properties of the classifier *)

Lemma cycle_loop_first (funcs : list ((WasherDryer → bool) * string))
    (washer : WasherDryer) (i : nat) func cycle_name :
  funcs !! i = Some (func, cycle_name) →
  func washer = true →
  (∀ (j : nat) func' name', (j < i)%nat → funcs !! j = Some (func', name') →
                            func' washer = false) →
  cycle_loop funcs washer = Some cycle_name.
Proof.
  revert i. induction funcs as [|[f name] rest IH]; intros i Hi Hf Hbefore.
  - by rewrite lookup_nil in Hi.
  - destruct i as [|i]; simpl in *.
    + injection Hi as -> ->. by rewrite Hf.
    + rewrite (Hbefore 0%nat f name); [| lia | done].
      apply (IH i); [done | done |].
      intros j f' n' Hj Hlook. apply (Hbefore (S j) f' n'); [lia | done].
Qed.

Lemma cycle_loop_none (funcs : list ((WasherDryer → bool) * string))
    (washer : WasherDryer) :
  (∀ func cycle_name, (func, cycle_name) ∈ funcs → func washer = false) →
  cycle_loop funcs washer = None.
Proof.
  induction funcs as [|[f name] rest IH]; intros Hall; simpl; [done |].
  rewrite (Hall f name); [| left].
  apply IH. intros f' n' Hin. apply (Hall f' n'). by right.
Qed.

Lemma washer_state_door_closed (washer : WasherDryer) :
  get_attribute washer "Cavity_OpStatusDoorOpen" ≠ Some "1" →
  washer_state washer =
    match (if bool_decide (get_machine_state washer = Some RunningMainCycle)
           then cycle_loop CYCLE_FUNC washer else None) with
    | Some cycle_name => Some cycle_name
    | None => dict_get MACHINE_STATE (get_machine_state washer)
    end.
Proof. intros Hdoor. unfold washer_state. by rewrite bool_decide_eq_false_2. Qed.

Lemma MACHINE_STATE_total (m : MachineState) : is_Some (MACHINE_STATE !! m).
Proof. destruct m; vm_compute; eauto. Qed.

(** C4. Whenever the attribute [Cavity_OpStatusDoorOpen] equals ["1"],
    [washer_state] returns [door_open], whatever the machine state and the
    six cycle-phase flags are. *)
Theorem door_open_overrides (washer : WasherDryer) :
  get_attribute washer "Cavity_OpStatusDoorOpen" = Some "1" →
  washer_state washer = Some "door_open".
Proof. intros Hdoor. unfold washer_state. by rewrite Hdoor. Qed.

Lemma door_open_overrides_witness :
  let w := washer [("Cavity_OpStatusDoorOpen", "1")] (Some RunningMainCycle)
                  false true false false true true in
  get_attribute w "Cavity_OpStatusDoorOpen" = Some "1"
  ∧ washer_state w = Some "door_open".
Proof.
  split; [vm_compute; reflexivity |].
  apply door_open_overrides. vm_compute. reflexivity.
Defined.

(** C5. With the door not reported open and the machine in
    [RunningMainCycle], [washer_state] goes through the six cycle-phase
    predicates in the order filling, rinsing, sensing, soaking, spinning,
    washing and returns the label of the first one that holds (so the only
    true flag's label when exactly one holds, and the earliest in that order
    when several hold); when none holds it returns the table's label
    [running_maincycle]. *)
Theorem cycle_phase_priority (washer : WasherDryer) :
  get_attribute washer "Cavity_OpStatusDoorOpen" ≠ Some "1" →
  get_machine_state washer = Some RunningMainCycle →
  CYCLE_FUNC.*2 = [ "cycle_filling"; "cycle_rinsing"; "cycle_sensing";
                    "cycle_soaking"; "cycle_spinning"; "cycle_washing" ]
  ∧ (∀ (i : nat) func cycle_name,
       CYCLE_FUNC !! i = Some (func, cycle_name) →
       func washer = true →
       (∀ (j : nat) func' name', (j < i)%nat → CYCLE_FUNC !! j = Some (func', name') →
                                 func' washer = false) →
       washer_state washer = Some cycle_name)
  ∧ ((∀ func cycle_name, (func, cycle_name) ∈ CYCLE_FUNC → func washer = false) →
     washer_state washer = Some "running_maincycle")
  ∧ washer_state washer =
      Some (if get_cycle_status_filling washer then "cycle_filling"
            else if get_cycle_status_rinsing washer then "cycle_rinsing"
            else if get_cycle_status_sensing washer then "cycle_sensing"
            else if get_cycle_status_soaking washer then "cycle_soaking"
            else if get_cycle_status_spinning washer then "cycle_spinning"
            else if get_cycle_status_washing washer then "cycle_washing"
            else "running_maincycle").
Proof.
  intros Hdoor Hstate.
  rewrite (washer_state_door_closed _ Hdoor), Hstate.
  rewrite bool_decide_eq_true_2 by done.
  repeat split.
  - intros i func cycle_name Hi Hf Hbefore.
    by rewrite (cycle_loop_first _ _ i func cycle_name Hi Hf Hbefore).
  - intros Hnone. by rewrite (cycle_loop_none _ _ Hnone).
  - unfold CYCLE_FUNC. cbn [cycle_loop]. by repeat case_match.
Qed.

Lemma cycle_phase_priority_witness :
  let w := washer [("Cavity_OpStatusDoorOpen", "0")] (Some RunningMainCycle)
                  false false true false true true in
  washer_state w = Some "cycle_sensing".
Proof.
  intros w.
  assert (Hdoor : get_attribute w "Cavity_OpStatusDoorOpen" ≠ Some "1")
    by (vm_compute; discriminate).
  assert (Hstate : get_machine_state w = Some RunningMainCycle) by reflexivity.
  destruct (cycle_phase_priority w Hdoor Hstate) as (_ & Hfirst & _ & _).
  apply (Hfirst 2%nat get_cycle_status_sensing); [reflexivity | reflexivity |].
  intros [|[|j]] func' name' Hj Hlook; [| | lia];
    injection Hlook as <- _; reflexivity.
Defined.

(** C6. With the door not reported open, a machine state that is no key of
    the [MACHINE_STATE] table makes [washer_state] return [None] (the
    unknown value); [washer_state] is a total function, so no input makes
    it fail. *)
Theorem unmapped_state_unknown (washer : WasherDryer) :
  get_attribute washer "Cavity_OpStatusDoorOpen" ≠ Some "1" →
  (∀ m, get_machine_state washer = Some m → MACHINE_STATE !! m = None) →
  washer_state washer = None.
Proof.
  intros Hdoor Hunmapped.
  rewrite (washer_state_door_closed _ Hdoor).
  destruct (get_machine_state washer) as [m|] eqn:Hstate.
  - destruct (MACHINE_STATE_total m) as [label Hlabel].
    rewrite (Hunmapped m eq_refl) in Hlabel. discriminate.
  - by rewrite bool_decide_eq_false_2.
Qed.

Lemma unmapped_state_unknown_witness :
  let w := washer [] None true false false false false true in
  washer_state w = None.
Proof.
  intros w. apply unmapped_state_unknown.
  - vm_compute. discriminate.
  - intros m Hm. discriminate Hm.
Defined.

(** C8. The tank-level value is a lookup of the raw
    [WashCavity_OpStatusBulkDispense1Level] code in [TANK_FILL]: the codes
    ["0"] to ["5"] give unknown, empty, 25, 50, 100 and active, every other
    code (["9"], say) and a missing attribute give [None]; two appliances
    that report the same code get the same level, whatever their machine
    state, door and cycle flags are. *)
Theorem tank_level_lookup (wd wd' : WasherDryer) :
  get_attribute wd' "WashCavity_OpStatusBulkDispense1Level"
    = get_attribute wd "WashCavity_OpStatusBulkDispense1Level" →
  value_fn <$> SENSORS !! 1%nat = Some tank_value_fn
  ∧ tank_value_fn wd' = tank_value_fn wd
  ∧ tank_value_fn wd =
      match get_attribute wd "WashCavity_OpStatusBulkDispense1Level" with
      | None => None
      | Some code =>
          if bool_decide (code = "0") then Some "unknown"
          else if bool_decide (code = "1") then Some "empty"
          else if bool_decide (code = "2") then Some "25"
          else if bool_decide (code = "3") then Some "50"
          else if bool_decide (code = "4") then Some "100"
          else if bool_decide (code = "5") then Some "active"
          else None
      end.
Proof.
  intros Hsame. unfold tank_value_fn. rewrite Hsame.
  split; [reflexivity |]. split; [reflexivity |].
  destruct (get_attribute wd _) as [code|]; [| reflexivity].
  unfold dict_get, TANK_FILL, TANK_FILL_items. cbn [mbind option_bind].
  rewrite !list_to_map_cons, list_to_map_nil. cbn [fst snd].
  repeat (case_bool_decide;
          [ subst code; by rewrite lookup_insert_eq
          | rewrite lookup_insert_ne by congruence ]).
  apply lookup_empty.
Qed.

Lemma tank_level_lookup_witness :
  let w3 := no_flags [("WashCavity_OpStatusBulkDispense1Level", "3")] (Some Standby) in
  let w3' := washer [("WashCavity_OpStatusBulkDispense1Level", "3");
                     ("Cavity_OpStatusDoorOpen", "1")]
                    (Some RunningMainCycle) true false false false false true in
  let w9 := no_flags [("WashCavity_OpStatusBulkDispense1Level", "9")] (Some Standby) in
  tank_value_fn w3 = Some "50"
  ∧ tank_value_fn w3' = tank_value_fn w3
  ∧ tank_value_fn w9 = None.
Proof.
  intros w3 w3' w9.
  assert (H3 : get_attribute w3' "WashCavity_OpStatusBulkDispense1Level"
               = get_attribute w3 "WashCavity_OpStatusBulkDispense1Level")
    by (vm_compute; reflexivity).
  destruct (tank_level_lookup w3 w3' H3) as (_ & Hsame & Hvalue).
  destruct (tank_level_lookup w9 w9 eq_refl) as (_ & _ & Hvalue9).
  split; [| split].
  - rewrite Hvalue. vm_compute. reflexivity.
  - exact Hsame.
  - rewrite Hvalue9. vm_compute. reflexivity.
Defined.

(** ** Properties of the timestamp sensor *)

(** Unfolds the monad's operations in the goal. *)
Ltac run_monad :=
  unfold value_of, when, lift, read;
  unfold mbind, M_bind, mret, M_ret;
  cbn beta iota.

Section Estimator.

Context `{V : MachineStateValues}.
Implicit Types (self : Sensor) (wd : WasherDryer) (now : Z).

Lemma finished_spec (m : MachineState) :
  bool_decide (value m ∈ ({[ value Complete; value Standby ]} : gset Z))
  = bool_decide (m = Complete ∨ m = Standby).
Proof.
  apply bool_decide_ext. rewrite elem_of_union, !elem_of_singleton.
  split; (intros [Hm|Hm]; [left|right]); first [by apply value_inj | by subst].
Qed.

Lemma update_no_state wd now self :
  get_machine_state wd = None →
  update_from_latest_data wd now self = (Raise AttributeError, self).
Proof.
  intros Hstate. unfold update_from_latest_data. rewrite Hstate. reflexivity.
Qed.

Lemma update_not_running wd now self m :
  get_machine_state wd = Some m →
  m ≠ RunningMainCycle →
  update_from_latest_data wd now self =
    (Ok (), if bool_decide (m = Complete ∨ m = Standby) && truthy (_running self)
            then finished_at now self else self).
Proof.
  intros Hstate Hm. unfold update_from_latest_data. rewrite Hstate.
  rewrite (bool_decide_eq_false_2 (Some m = Some RunningMainCycle)) by congruence.
  run_monad. rewrite finished_spec.
  destruct (bool_decide (m = Complete ∨ m = Standby) && truthy (_running self));
    reflexivity.
Qed.

Lemma update_running wd now self :
  get_machine_state wd = Some RunningMainCycle →
  update_from_latest_data wd now self =
    match new_timestamp_of wd now with
    | Raise e => (Raise e, marked_running self)
    | Ok new_timestamp =>
        (Ok (), if differs_enough (_attr_native_value self) new_timestamp
                then emitted new_timestamp self
                else marked_running self)
    end.
Proof.
  intros Hstate. unfold update_from_latest_data. rewrite Hstate.
  rewrite (bool_decide_eq_true_2 (Some RunningMainCycle = Some RunningMainCycle))
    by reflexivity.
  run_monad. rewrite finished_spec.
  rewrite (bool_decide_eq_false_2 (RunningMainCycle = _ ∨ _))
    by (intros [|]; discriminate).
  cbn [andb]. unfold new_timestamp_of, REMAINING.
  destruct (py_int _) as [r|e]; [| reflexivity].
  destruct (timedelta r) as [delta|e]; [| reflexivity].
  destruct (datetime_add now delta) as [stamp|e]; [| reflexivity].
  unfold set_running at 1. cbn beta iota. cbn [_attr_native_value].
  destruct (differs_enough _ _); reflexivity.
Qed.

Lemma new_timestamp_representable wd now r :
  py_int (get_attribute wd REMAINING) = Ok r →
  representable now r →
  new_timestamp_of wd now = Ok (now + seconds r).
Proof.
  intros Hparse [Hdelta Hstamp]. unfold new_timestamp_of. rewrite Hparse.
  unfold timedelta. rewrite bool_decide_eq_true_2 by done.
  unfold datetime_add. by rewrite bool_decide_eq_true_2.
Qed.

Lemma new_timestamp_unparseable wd now :
  (get_attribute wd REMAINING = None
   ∨ ∃ text, get_attribute wd REMAINING = Some text ∧ int_of_str text = None) →
  new_timestamp_of wd now =
    Raise (if get_attribute wd REMAINING is None then TypeError else ValueError).
Proof.
  unfold new_timestamp_of, py_int.
  intros [-> | (text & -> & ->)]; reflexivity.
Qed.

(** Outside [RunningMainCycle], a sensor whose [_running] is not true is
    left untouched by a notification, whether the call returns or raises. *)
Lemma idle_notification_ignored wd now self :
  get_machine_state wd ≠ Some RunningMainCycle →
  truthy (_running self) = false →
  (update_from_latest_data wd now self).2 = self.
Proof.
  intros Hstate Hidle. destruct (get_machine_state wd) as [m|] eqn:Hm.
  - rewrite (update_not_running _ _ _ m Hm) by congruence.
    by rewrite Hidle, andb_false_r.
  - by rewrite (update_no_state _ _ _ Hm).
Qed.

Lemma idle_notifications_ignored (ns : list Notification) self :
  Forall (λ n, get_machine_state (snapshot n) ≠ Some RunningMainCycle) ns →
  truthy (_running self) = false →
  deliver ns self = self.
Proof.
  intros Hns Hidle. induction Hns as [|n ns Hn _ IH]; [reflexivity |].
  unfold deliver in *. cbn [foldl]. unfold attr_changed at 2.
  destruct (registered self); [| exact IH].
  by rewrite (idle_notification_ignored _ _ _ Hn Hidle).
Qed.

Lemma unregistered_ignores (ns : list Notification) self :
  registered self = false → deliver ns self = self.
Proof.
  intros Hreg. induction ns as [|n ns IH]; [reflexivity |].
  unfold deliver in *. cbn [foldl]. unfold attr_changed at 2. by rewrite Hreg.
Qed.

End Estimator.

Lemma added_to_hass (restored_data : option SensorExtraStoredData) :
  async_added_to_hass restored_data __init__ =
    (Ok (), {| _running := None;
               _attr_native_value := restored_data ≫= native_value;
               written := [];
               registered := true |}).
Proof. by destruct restored_data. Qed.

(** C1, as the code has it. For a notification in [RunningMainCycle] whose
    remaining-seconds attribute is missing, or is an ASCII text that is no
    integer literal, [update_from_latest_data] sets [_running] to [True]
    and then raises at the [int(...)] conversion ([TypeError] for a missing
    attribute, [ValueError] for a malformed one); nothing is written to the
    host for that notification and [_attr_native_value] keeps its value. *)
Theorem unparseable_remaining_raises `{V : MachineStateValues}
    (wd : WasherDryer) (now : Z) (self : Sensor) :
  get_machine_state wd = Some RunningMainCycle →
  (get_attribute wd REMAINING = None
   ∨ ∃ text, get_attribute wd REMAINING = Some text
             ∧ is_ascii text = true
             ∧ int_of_str text = None) →
  let out := update_from_latest_data wd now self in
  out.1 = Raise (if get_attribute wd REMAINING is None
                 then TypeError else ValueError)
  ∧ written out.2 = written self
  ∧ _attr_native_value out.2 = _attr_native_value self
  ∧ _running out.2 = Some true
  ∧ registered out.2 = registered self.
Proof.
  intros Hstate Hbad out. subst out.
  assert (Hraises : get_attribute wd REMAINING = None
                    ∨ ∃ text, get_attribute wd REMAINING = Some text
                              ∧ int_of_str text = None).
  { destruct Hbad as [Habsent | (text & Htext & _ & Hparse)];
      [by left | right; by exists text]. }
  rewrite (update_running _ _ _ Hstate), (new_timestamp_unparseable _ _ Hraises).
  by cbn.
Qed.

Lemma unparseable_remaining_raises_witness :
  let wd := no_flags [(REMAINING, "soon")] (Some RunningMainCycle) in
  (@update_from_latest_data sample_values wd (seconds 7) __init__).1
  = Raise ValueError.
Proof.
  intros wd.
  apply (@unparseable_remaining_raises sample_values wd (seconds 7) __init__ eq_refl).
  right. exists "soon". repeat split; vm_compute; reflexivity.
Defined.

(** C1, as the specification states it, fails: with the remaining-seconds
    attribute missing, and likewise with a malformed one, a
    [RunningMainCycle] notification makes [update_from_latest_data] raise,
    and [_running] has changed from unset to [True]. *)
Lemma remaining_absent_raises :
  let absent := no_flags [] (Some RunningMainCycle) in
  let malformed := no_flags [(REMAINING, "12:30")] (Some RunningMainCycle) in
  get_attribute absent REMAINING = None
  ∧ @update_from_latest_data sample_values absent 0 __init__
    = (Raise TypeError, marked_running __init__)
  ∧ int_of_str "12:30" = None
  ∧ @update_from_latest_data sample_values malformed 0 __init__
    = (Raise ValueError, marked_running __init__)
  ∧ _running (marked_running __init__) ≠ _running __init__.
Proof. vm_compute. repeat split; discriminate. Qed.

(** C2, as the specification states it, fails: a remaining-seconds value
    of 300000000000 is a well-formed integer, but on 2024-01-01 the candidate
    lies past the last [datetime]; with no value stored the call raises
    [OverflowError] and writes nothing instead of writing the candidate. *)
Lemma overflowing_candidate_not_written :
  let wd := no_flags [(REMAINING, "300000000000")] (Some RunningMainCycle) in
  let now := seconds 1704067200 in
  py_int (get_attribute wd REMAINING) = Ok 300000000000
  ∧ _attr_native_value __init__ = None
  ∧ datetime_max < now + seconds 300000000000
  ∧ @update_from_latest_data sample_values wd now __init__
    = (Raise OverflowError, marked_running __init__)
  ∧ written (marked_running __init__) = [].
Proof. vm_compute. repeat split; reflexivity. Qed.

(** C2, as the code has it. For a notification in [RunningMainCycle] whose
    remaining-seconds attribute parses to [r] and whose candidate
    [T1 = now + r] seconds is within the ranges of [timedelta] and
    [datetime]: the call returns normally; if the stored value is a
    timestamp [T0] with [|T1 - T0| <= 60 s], nothing is written and [T0]
    stays; if no value is stored, or the stored timestamp [T0] has
    [|T1 - T0| > 60 s], [T1] is written to the host and stored. *)
Theorem hysteresis_law `{V : MachineStateValues}
    (wd : WasherDryer) (now : Z) (self : Sensor) (r : Z) :
  get_machine_state wd = Some RunningMainCycle →
  py_int (get_attribute wd REMAINING) = Ok r →
  representable now r →
  let T1 := now + seconds r in
  let out := update_from_latest_data wd now self in
  out.1 = Ok ()
  ∧ (∀ T0, _attr_native_value self = Some (Datetime T0) →
           Z.abs (T1 - T0) ≤ seconds 60 →
           written out.2 = written self
           ∧ _attr_native_value out.2 = Some (Datetime T0))
  ∧ ((_attr_native_value self = None
      ∨ ∃ T0, _attr_native_value self = Some (Datetime T0)
              ∧ Z.abs (T1 - T0) > seconds 60) →
     written out.2 = written self ++ [Some (Datetime T1)]
     ∧ _attr_native_value out.2 = Some (Datetime T1)).
Proof.
  intros Hstate Hparse Hrange T1 out. subst out.
  rewrite (update_running _ _ _ Hstate).
  rewrite (new_timestamp_representable _ _ _ Hparse Hrange). fold T1.
  split; [reflexivity |]. split.
  - intros T0 Hstored Hclose. rewrite Hstored. cbn [differs_enough snd].
    rewrite bool_decide_eq_false_2 by lia. by cbn.
  - intros [Hnone | (T0 & Hstored & Hfar)].
    + rewrite Hnone. by cbn.
    + rewrite Hstored. cbn [differs_enough snd].
      rewrite bool_decide_eq_true_2 by lia. by cbn.
Qed.

Lemma hysteresis_law_witness :
  let wd := no_flags [(REMAINING, "120")] (Some RunningMainCycle) in
  (* candidate 130 s: within 60 s of the stored 100 s *)
  written (@update_from_latest_data sample_values wd (seconds 10) mid_cycle).2
    = [Some (Datetime (seconds 100))]
  (* candidate 161 s: more than 60 s away *)
  ∧ written (@update_from_latest_data sample_values wd (seconds 41) mid_cycle).2
    = [Some (Datetime (seconds 100)); Some (Datetime (seconds 161))].
Proof.
  intros wd.
  assert (Hparse : py_int (get_attribute wd REMAINING) = Ok 120)
    by (vm_compute; reflexivity).
  split.
  - destruct (@hysteresis_law sample_values wd (seconds 10) mid_cycle 120
                              eq_refl Hparse)
      as (_ & Hnear & _); [vm_compute; intuition discriminate |].
    apply (Hnear (seconds 100)); [reflexivity | vm_compute; discriminate].
  - destruct (@hysteresis_law sample_values wd (seconds 41) mid_cycle 120
                              eq_refl Hparse)
      as (_ & _ & Hfar); [vm_compute; intuition discriminate |].
    apply Hfar. right. exists (seconds 100).
    split; [reflexivity | vm_compute; reflexivity].
Defined.

(** C3. A notification in [Complete] or [Standby] that finds [_running]
    true sets [_running] to [False], stores [now] in [_attr_native_value]
    and writes [now] to the host, once; a following notification with the
    same machine state then finds [_running] false, writes nothing and
    leaves the sensor as it is. *)
Theorem finish_transition `{V : MachineStateValues}
    (wd wd' : WasherDryer) (now now' : Z) (self : Sensor) (m : MachineState) :
  m = Complete ∨ m = Standby →
  get_machine_state wd = Some m →
  get_machine_state wd' = Some m →
  _running self = Some true →
  let first := update_from_latest_data wd now self in
  let second := update_from_latest_data wd' now' first.2 in
  first.1 = Ok ()
  ∧ _running first.2 = Some false
  ∧ _attr_native_value first.2 = Some (Datetime now)
  ∧ written first.2 = written self ++ [Some (Datetime now)]
  ∧ second = (Ok (), first.2).
Proof.
  intros Hterminal Hstate Hstate' Hrunning first second.
  assert (Hm : m ≠ RunningMainCycle) by (destruct Hterminal; subst m; discriminate).
  subst second first.
  rewrite (update_not_running _ _ _ m Hstate Hm), Hrunning.
  rewrite bool_decide_eq_true_2 by done. cbn [andb truthy fst snd].
  rewrite (update_not_running _ _ _ m Hstate' Hm).
  cbn [finished_at _running truthy]. rewrite andb_false_r.
  by cbn.
Qed.

Lemma finish_transition_witness :
  let wd := no_flags [(REMAINING, "0")] (Some Complete) in
  let first := @update_from_latest_data sample_values wd (seconds 500) mid_cycle in
  written first.2 = [Some (Datetime (seconds 100)); Some (Datetime (seconds 500))]
  ∧ @update_from_latest_data sample_values wd (seconds 503) first.2 = (Ok (), first.2).
Proof.
  intros wd first.
  destruct (@finish_transition sample_values wd wd (seconds 500) (seconds 503)
                               mid_cycle Complete)
    as (_ & _ & _ & Hwritten & Hsecond);
    [left; reflexivity | reflexivity | reflexivity | reflexivity |].
  split; [exact Hwritten | exact Hsecond].
Defined.

(** C9. The finish branch does not consult the 60-second threshold: in
    [Complete] or [Standby] with [_running] true, [now] is written to the
    host and stored even when the stored timestamp is within 60 seconds of
    [now]. *)
Theorem finish_bypasses_hysteresis `{V : MachineStateValues}
    (wd : WasherDryer) (now T0 : Z) (self : Sensor) (m : MachineState) :
  m = Complete ∨ m = Standby →
  get_machine_state wd = Some m →
  _running self = Some true →
  _attr_native_value self = Some (Datetime T0) →
  Z.abs (now - T0) ≤ seconds 60 →
  let out := update_from_latest_data wd now self in
  out.1 = Ok ()
  ∧ written out.2 = written self ++ [Some (Datetime now)]
  ∧ _attr_native_value out.2 = Some (Datetime now).
Proof.
  intros Hterminal Hstate Hrunning _ _ out. subst out.
  assert (Hm : m ≠ RunningMainCycle) by (destruct Hterminal; subst m; discriminate).
  rewrite (update_not_running _ _ _ m Hstate Hm), Hrunning.
  rewrite bool_decide_eq_true_2 by done. by cbn.
Qed.

Lemma finish_bypasses_hysteresis_witness :
  let wd := no_flags [] (Some Standby) in
  (* 5 s before the stored timestamp *)
  let out := @update_from_latest_data sample_values wd (seconds 95) mid_cycle in
  out.1 = Ok ()
  ∧ written out.2 = [Some (Datetime (seconds 100)); Some (Datetime (seconds 95))]
  ∧ _attr_native_value out.2 = Some (Datetime (seconds 95)).
Proof.
  intros wd.
  apply (@finish_bypasses_hysteresis sample_values wd (seconds 95) (seconds 100)
                                     mid_cycle Standby);
    [right; reflexivity | reflexivity | reflexivity | reflexivity |].
  vm_compute. discriminate.
Defined.

(** C7. Creating the sensor and adding it to the host with a persisted
    timestamp [T] stores [T] as the current value, leaves [_running] unset
    (false as a condition), writes nothing to the host, and only then
    registers the callback, so no notification is handled before the value
    is in place.  The first [RunningMainCycle] notification after that
    replaces [T] by its candidate exactly when the candidate is more than
    60 seconds away from [T]. *)
Theorem restoration `{V : MachineStateValues}
    (data : SensorExtraStoredData) (T : Z)
    (early : list Notification) (wd : WasherDryer) (now r : Z) :
  native_value data = Some (Datetime T) →
  get_machine_state wd = Some RunningMainCycle →
  py_int (get_attribute wd REMAINING) = Ok r →
  representable now r →
  let created := deliver early __init__ in
  let added := async_added_to_hass (Some data) created in
  let T1 := now + seconds r in
  let live := attr_changed added.2 {| snapshot := wd; clock := now |} in
  created = __init__
  ∧ added = (Ok (), {| _running := None;
                       _attr_native_value := Some (Datetime T);
                       written := [];
                       registered := true |})
  ∧ truthy (_running added.2) = false
  ∧ _running live = Some true
  ∧ _attr_native_value live =
      Some (Datetime (if bool_decide (Z.abs (T1 - T) > seconds 60) then T1 else T))
  ∧ written live =
      (if bool_decide (Z.abs (T1 - T) > seconds 60)
       then [Some (Datetime T1)] else []).
Proof.
  intros Hdata Hstate Hparse Hrange created added T1 live.
  assert (Hcreated : created = __init__)
    by (subst created; by apply unregistered_ignores).
  subst live added. rewrite Hcreated.
  rewrite (added_to_hass (Some data)). cbn [mbind option_bind]. rewrite Hdata.
  split; [reflexivity |]. split; [reflexivity |]. split; [reflexivity |].
  unfold attr_changed. cbn [snd registered snapshot clock].
  rewrite (update_running _ _ _ Hstate).
  rewrite (new_timestamp_representable _ _ _ Hparse Hrange).
  cbn [differs_enough _attr_native_value snd]. fold T1.
  by case_bool_decide.
Qed.

Lemma restoration_witness :
  let wd := no_flags [(REMAINING, "120")] (Some RunningMainCycle) in
  let added := (async_added_to_hass (Some stored_2024) __init__).2 in
  let live := @attr_changed sample_values added
                {| snapshot := wd; clock := seconds 1704067500 |} in
  _attr_native_value added = Some (Datetime (seconds 1704067200))
  ∧ _attr_native_value live = Some (Datetime (seconds 1704067620)).
Proof.
  intros wd added live.
  destruct (@restoration sample_values stored_2024 (seconds 1704067200) [] wd
                         (seconds 1704067500) 120)
    as (_ & Hadded & _ & _ & Hvalue & _);
    [ reflexivity | reflexivity | vm_compute; reflexivity
    | vm_compute; intuition discriminate | ].
  split.
  - subst added. cbn [deliver foldl] in Hadded. by rewrite Hadded.
  - exact Hvalue.
Defined.

(** C10. A new sensor has [_running] unset, and restoring a persisted
    value leaves it unset; so a [Complete] or [Standby] notification that
    arrives first writes nothing and leaves the sensor unchanged, and more
    generally, as long as no notification in [RunningMainCycle] has been
    delivered, nothing is written to the host and [_running] stays
    unset. *)
Theorem no_finish_before_running `{V : MachineStateValues}
    (restored_data : option SensorExtraStoredData)
    (ns : list Notification) (wd : WasherDryer) (now : Z) (m : MachineState) :
  Forall (λ n, get_machine_state (snapshot n) ≠ Some RunningMainCycle) ns →
  m = Complete ∨ m = Standby →
  get_machine_state wd = Some m →
  let added := (async_added_to_hass restored_data __init__).2 in
  _running __init__ = None
  ∧ _running added = None
  ∧ update_from_latest_data wd now __init__ = (Ok (), __init__)
  ∧ update_from_latest_data wd now added = (Ok (), added)
  ∧ written (deliver ns added) = []
  ∧ _running (deliver ns added) = None.
Proof.
  intros Hns Hterminal Hstate added. subst added.
  rewrite (added_to_hass restored_data). cbn [snd].
  assert (Hm : m ≠ RunningMainCycle) by (destruct Hterminal; subst m; discriminate).
  rewrite !(update_not_running _ _ _ m Hstate Hm). cbn [_running __init__ truthy].
  rewrite andb_false_r.
  rewrite (idle_notifications_ignored ns _ Hns) by reflexivity.
  by cbn.
Qed.

Lemma no_finish_before_running_witness :
  let added := (async_added_to_hass (Some stored_2024) __init__).2 in
  let ns := [ {| snapshot := no_flags [] (Some Standby); clock := seconds 1704067500 |};
              {| snapshot := no_flags [] None; clock := seconds 1704067501 |};
              {| snapshot := no_flags [] (Some Complete); clock := seconds 1704067502 |} ] in
  written (@deliver sample_values ns added) = [].
Proof.
  intros added ns.
  destruct (@no_finish_before_running sample_values (Some stored_2024) ns
              (no_flags [] (Some Complete)) 0 Complete)
    as (_ & _ & _ & _ & Hwritten & _);
    [ | left; reflexivity | reflexivity | exact Hwritten ].
  repeat constructor; discriminate.
Defined.

(** ** Further properties of the classifier *)

(** Decides a membership, or another decidable fact, about closed data. *)
Ltac by_computation := apply (bool_decide_unpack _); vm_compute; exact I.

(** Splits a membership in a list literal into one case per element. *)
Ltac elem_cases H :=
  repeat (apply elem_of_cons in H as [H|H]); [..| by apply elem_of_nil in H].

Lemma cycle_loop_some (funcs : list ((WasherDryer → bool) * string))
    (washer : WasherDryer) (cycle_name : string) :
  cycle_loop funcs washer = Some cycle_name →
  ∃ func, (func, cycle_name) ∈ funcs ∧ func washer = true.
Proof.
  induction funcs as [|[f name] rest IH]; simpl; [discriminate |].
  destruct (f washer) eqn:Hf.
  - intros [= <-]. exists f. split; [left | done].
  - intros Hrest. destruct (IH Hrest) as (func & Hin & Hfunc).
    exists func. split; [by right | done].
Qed.

Lemma dict_lookup_in_values {K} `{Countable K} (items : list (K * string))
    (k : K) (v : string) :
  (list_to_map items : gmap K string) !! k = Some v → v ∈ dict_values items.
Proof.
  intros Hlook. apply elem_of_list_to_map_2 in Hlook.
  unfold dict_values. apply list_elem_of_fmap. by exists (k, v).
Qed.

(** The three ways [washer_state] produces a label. *)
Lemma washer_state_cases (washer : WasherDryer) (label : string) :
  washer_state washer = Some label →
  (label = "door_open" ∧ get_attribute washer "Cavity_OpStatusDoorOpen" = Some "1")
  ∨ (get_attribute washer "Cavity_OpStatusDoorOpen" ≠ Some "1"
     ∧ get_machine_state washer = Some RunningMainCycle
     ∧ ∃ func, (func, label) ∈ CYCLE_FUNC ∧ func washer = true)
  ∨ (get_attribute washer "Cavity_OpStatusDoorOpen" ≠ Some "1"
     ∧ ∃ m, get_machine_state washer = Some m ∧ MACHINE_STATE !! m = Some label).
Proof.
  unfold washer_state. cbv zeta. case_bool_decide as Hdoor.
  - intros [= <-]. by left.
  - intros Hlabel. right. revert Hlabel. case_bool_decide as Hstate.
    + destruct (cycle_loop CYCLE_FUNC washer) as [name|] eqn:Hloop.
      * intros [= <-]. left. split; [done |]. split; [done |].
        by apply cycle_loop_some.
      * rewrite Hstate. intros Hlabel. right. split; [done |].
        by exists RunningMainCycle.
    + destruct (get_machine_state washer) as [m|]; [| discriminate].
      intros Hlabel. right. split; [done |]. by exists m.
Qed.

(** X1. Whatever the appliance reports, the value of each of the two
    [SENSORS] descriptions is either [None] or one of the [options] that
    the description declares. *)
Theorem native_value_in_options (d : WhirlpoolSensorEntityDescription)
    (wd : WasherDryer) (v : string) :
  d ∈ SENSORS →
  WasherDryerClass.native_value d wd = Some v →
  v ∈ options d.
Proof.
  intros Hd. unfold SENSORS in Hd. elem_cases Hd; subst d;
    unfold WasherDryerClass.native_value; cbn [value_fn options]; intros Hv.
  - apply washer_state_cases in Hv
      as [[-> _] | [(_ & _ & func & Hin & _) | (_ & m & _ & Hlabel)]].
    + by_computation.
    + unfold CYCLE_FUNC in Hin. elem_cases Hin; injection Hin as _ ->; by_computation.
    + apply elem_of_app. left. by apply (dict_lookup_in_values _ m).
  - unfold tank_value_fn, dict_get in Hv.
    destruct (get_attribute wd _) as [code|]; [| discriminate].
    by apply (dict_lookup_in_values _ code).
Qed.

Lemma native_value_in_options_witness :
  let wd := washer [("WashCavity_OpStatusBulkDispense1Level", "4")]
                   (Some RunningMainCycle) false false false true false false in
  match SENSORS with
  | [state; tank] => "cycle_soaking" ∈ options state ∧ "100" ∈ options tank
  | _ => False
  end.
Proof.
  intros wd. cbv beta iota delta [SENSORS]. split.
  - apply (native_value_in_options _ wd); [left | vm_compute; reflexivity].
  - apply (native_value_in_options _ wd); [right; left | vm_compute; reflexivity].
Defined.

(** X2. [washer_state] answers [door_open] only for an open door: the
    label [door_open] is returned exactly when [Cavity_OpStatusDoorOpen]
    is ["1"]; no machine state and no cycle phase maps to it. *)
Theorem door_open_only_when_open (washer : WasherDryer) :
  washer_state washer = Some "door_open"
  ↔ get_attribute washer "Cavity_OpStatusDoorOpen" = Some "1".
Proof.
  split.
  - intros Hlabel. apply washer_state_cases in Hlabel
      as [[_ Hdoor] | [(_ & _ & func & Hin & _) | (_ & m & _ & Hlabel)]];
      [done | exfalso..].
    + unfold CYCLE_FUNC in Hin. elem_cases Hin; discriminate Hin.
    + destruct m; vm_compute in Hlabel; discriminate Hlabel.
  - intros Hdoor. unfold washer_state. by rewrite Hdoor.
Qed.

Lemma door_open_only_when_open_witness :
  get_attribute (no_flags [("Cavity_OpStatusDoorOpen", "1")] None)
                "Cavity_OpStatusDoorOpen" = Some "1".
Proof.
  apply door_open_only_when_open. vm_compute. reflexivity.
Defined.

(** X3. The unknown value [None] is returned in exactly one situation: the
    door is not reported open and the appliance reports a state that is no
    [MachineState] member. *)
Theorem unknown_only_without_state (washer : WasherDryer) :
  washer_state washer = None
  ↔ get_attribute washer "Cavity_OpStatusDoorOpen" ≠ Some "1"
    ∧ get_machine_state washer = None.
Proof.
  split.
  - unfold washer_state. cbv zeta. case_bool_decide as Hdoor; [discriminate |].
    destruct (get_machine_state washer) as [m|]; [| done].
    destruct (if bool_decide _ then _ else _); [discriminate |].
    unfold dict_get. cbn [mbind option_bind].
    destruct (MACHINE_STATE_total m) as [label ->]. discriminate.
  - intros [Hdoor Hstate]. rewrite (washer_state_door_closed _ Hdoor), Hstate.
    by rewrite bool_decide_eq_false_2.
Qed.

Lemma unknown_only_without_state_witness :
  let w := washer [("Cavity_OpStatusDoorOpen", "0")] None
                  true true true true true true in
  washer_state w = None.
Proof.
  intros w. apply unknown_only_without_state.
  split; [vm_compute; discriminate | reflexivity].
Defined.

(** X4. A cycle-phase label is never reported outside the main cycle or
    for a phase whose flag is off: when [washer_state] returns the label of
    an entry of [CYCLE_FUNC], the door is not reported open, the machine
    state is [RunningMainCycle] and that entry's predicate holds. *)
Theorem cycle_label_sound (washer : WasherDryer)
    (func : WasherDryer → bool) (cycle_name : string) :
  (func, cycle_name) ∈ CYCLE_FUNC →
  washer_state washer = Some cycle_name →
  get_attribute washer "Cavity_OpStatusDoorOpen" ≠ Some "1"
  ∧ get_machine_state washer = Some RunningMainCycle
  ∧ func washer = true.
Proof.
  intros Hentry Hlabel.
  apply washer_state_cases in Hlabel
    as [[-> _] | [(Hdoor & Hstate & func' & Hin & Hfunc) | (_ & m & _ & Hlabel)]].
  - exfalso. unfold CYCLE_FUNC in Hentry. elem_cases Hentry; discriminate Hentry.
  - split; [done |]. split; [done |].
    unfold CYCLE_FUNC in Hentry, Hin.
    elem_cases Hentry; injection Hentry as -> ->;
      elem_cases Hin; first [discriminate Hin | by injection Hin as <-].
  - exfalso. unfold CYCLE_FUNC in Hentry.
    elem_cases Hentry; injection Hentry as _ ->;
      destruct m; vm_compute in Hlabel; discriminate Hlabel.
Qed.

Lemma cycle_label_sound_witness :
  let w := washer [] (Some RunningMainCycle) false false false false true true in
  get_cycle_status_spinning w = true.
Proof.
  intros w.
  apply (cycle_label_sound w get_cycle_status_spinning "cycle_spinning");
    [do 4 right; left | vm_compute; reflexivity].
Defined.

(** X5. Outside the main cycle the cycle-phase flags play no part: with
    the door not reported open and a machine state other than
    [RunningMainCycle], [washer_state] is that state's table label, whatever
    the six flags are. *)
Theorem flags_ignored_outside_main_cycle (washer : WasherDryer) (m : MachineState) :
  get_attribute washer "Cavity_OpStatusDoorOpen" ≠ Some "1" →
  get_machine_state washer = Some m →
  m ≠ RunningMainCycle →
  washer_state washer = MACHINE_STATE !! m ∧ is_Some (washer_state washer).
Proof.
  intros Hdoor Hstate Hm.
  rewrite (washer_state_door_closed _ Hdoor), Hstate.
  rewrite bool_decide_eq_false_2 by congruence.
  split; [reflexivity | apply MACHINE_STATE_total].
Qed.

Lemma flags_ignored_outside_main_cycle_witness :
  let w := washer [] (Some Pause) false false false false false true in
  washer_state w = MACHINE_STATE !! Pause ∧ is_Some (washer_state w).
Proof.
  intros w. apply flags_ignored_outside_main_cycle;
    [vm_compute; discriminate | reflexivity | discriminate].
Defined.

(** X20. A machine-state label is reported only in that state: when
    [washer_state] returns the [MACHINE_STATE] label of [m], the door is
    not reported open and the appliance is in state [m]; for
    [RunningMainCycle] this also means that all six cycle-phase flags are
    off. *)
Theorem state_label_sound (washer : WasherDryer) (m : MachineState) (label : string) :
  MACHINE_STATE !! m = Some label →
  washer_state washer = Some label →
  get_attribute washer "Cavity_OpStatusDoorOpen" ≠ Some "1"
  ∧ get_machine_state washer = Some m
  ∧ (m = RunningMainCycle →
     ∀ func cycle_name, (func, cycle_name) ∈ CYCLE_FUNC → func washer = false).
Proof.
  intros Htable Hlabel.
  assert (Hcases := washer_state_cases washer label Hlabel).
  destruct Hcases
    as [[-> _] | [(_ & _ & func & Hin & _) | (Hdoor & m' & Hstate & Hlabel')]].
  - exfalso. destruct m; vm_compute in Htable; discriminate Htable.
  - exfalso. unfold CYCLE_FUNC in Hin.
    elem_cases Hin; injection Hin as _ ->;
      destruct m; vm_compute in Htable; discriminate Htable.
  - assert (m' = m) as ->.
    { rewrite <- Htable in Hlabel'. clear -Hlabel'.
      destruct m; vm_compute in Hlabel';
        destruct m'; first [reflexivity | discriminate Hlabel']. }
    split; [done |]. split; [done |].
    intros -> func cycle_name Hentry.
    rewrite (washer_state_door_closed _ Hdoor), Hstate in Hlabel.
    rewrite bool_decide_eq_true_2 in Hlabel by done.
    vm_compute in Htable. injection Htable as <-.
    destruct (cycle_loop CYCLE_FUNC washer) as [name|] eqn:Hloop.
    + exfalso. apply cycle_loop_some in Hloop as (f & Hin & _).
      injection Hlabel as ->. unfold CYCLE_FUNC in Hin.
      elem_cases Hin; discriminate Hin.
    + clear -Hloop Hentry. unfold CYCLE_FUNC in *. cbn [cycle_loop] in Hloop.
      elem_cases Hentry; injection Hentry as -> _;
        repeat case_match; first [discriminate | reflexivity].
Qed.

Lemma state_label_sound_witness :
  let w := no_flags [("Cavity_OpStatusDoorOpen", "0")] (Some RunningMainCycle) in
  get_attribute w "Cavity_OpStatusDoorOpen" ≠ Some "1"
  ∧ get_machine_state w = Some RunningMainCycle
  ∧ (RunningMainCycle = RunningMainCycle →
     ∀ func cycle_name, (func, cycle_name) ∈ CYCLE_FUNC → func w = false).
Proof.
  intros w.
  apply (state_label_sound w RunningMainCycle "running_maincycle");
    vm_compute; reflexivity.
Defined.

(** ** Further properties of the timestamp sensor *)

Lemma spaced_snoc (l : list (option StateValue)) (b : option StateValue) :
  spaced l = true →
  (∀ a, last l = Some a → far_apart a b = true) →
  spaced (l ++ [b]) = true.
Proof.
  induction l as [|a [|a' rest] IH]; intros Hl Hlast; [done | |].
  - cbn. by rewrite (Hlast a eq_refl).
  - cbn [spaced app] in *. apply andb_prop in Hl as [Hhead Htail].
    rewrite Hhead. cbn [andb]. apply IH; [done |].
    intros x Hx. by apply Hlast.
Qed.

Section Sequences.

Context `{V : MachineStateValues}.
Implicit Types (self : Sensor) (wd : WasherDryer) (now : Z).

(** The four ways a call can leave the sensor. *)
Lemma update_shape wd now self :
  let after := (update_from_latest_data wd now self).2 in
  after = self
  ∨ (after = finished_at now self
     ∧ truthy (_running self) = true
     ∧ (get_machine_state wd = Some Complete ∨ get_machine_state wd = Some Standby))
  ∨ (after = marked_running self ∧ get_machine_state wd = Some RunningMainCycle)
  ∨ (∃ stamp, after = emitted stamp self
              ∧ get_machine_state wd = Some RunningMainCycle
              ∧ new_timestamp_of wd now = Ok stamp
              ∧ differs_enough (_attr_native_value self) stamp = true).
Proof.
  intros after. subst after.
  destruct (get_machine_state wd) as [m|] eqn:Hstate;
    [| left; by rewrite (update_no_state _ _ _ Hstate)].
  destruct (decide (m = RunningMainCycle)) as [-> | Hm].
  - rewrite (update_running _ _ _ Hstate).
    destruct (new_timestamp_of wd now) as [stamp|e] eqn:Hstamp;
      [| right; right; left; done].
    destruct (differs_enough _ stamp) eqn:Hdiff; cbn [snd].
    + right. right. right. by exists stamp.
    + right. right. left. done.
  - rewrite (update_not_running _ _ _ m Hstate Hm). cbn [snd].
    case_bool_decide as Hterminal; cbn [andb]; [| by left].
    destruct (truthy (_running self)) eqn:Hrunning; [| by left].
    right. left. split; [done |]. split; [done |].
    destruct Hterminal as [-> | ->]; auto.
Qed.

Lemma deliver_snoc (ns : list Notification) (n : Notification) self :
  deliver (ns ++ [n]) self = attr_changed (deliver ns self) n.
Proof. unfold deliver. apply foldl_snoc. Qed.

Lemma registered_preserved wd now self :
  registered (update_from_latest_data wd now self).2 = registered self.
Proof.
  destruct (update_shape wd now self)
    as [-> | [(-> & _) | [(-> & _) | (stamp & -> & _)]]]; reflexivity.
Qed.

Lemma write_step wd now self :
  let after := (update_from_latest_data wd now self).2 in
  (written after = written self
   ∧ _attr_native_value after = _attr_native_value self)
  ∨ ∃ t, written after = written self ++ [Some (Datetime t)]
         ∧ _attr_native_value after = Some (Datetime t).
Proof.
  intros after. subst after.
  destruct (update_shape wd now self)
    as [-> | [(-> & _) | [(-> & _) | (stamp & -> & _)]]].
  - by left.
  - right. by exists now.
  - by left.
  - right. by exists stamp.
Qed.

Lemma tracks_step wd now self :
  tracks self → tracks (update_from_latest_data wd now self).2.
Proof.
  intros Htracks. unfold tracks.
  destruct (write_step wd now self) as [[Hw Hv] | (t & Hw & Hv)].
  - rewrite Hw, Hv. exact Htracks.
  - right. rewrite Hw, Hv. apply last_snoc.
Qed.

Lemma tracks_deliver (ns : list Notification) self :
  tracks self → tracks (deliver ns self).
Proof.
  intros Htracks. induction ns as [|n ns IH] using rev_ind; [done |].
  rewrite deliver_snoc. unfold attr_changed.
  destruct (registered (deliver ns self)); [by apply tracks_step | done].
Qed.

End Sequences.

(** X6. A remaining-seconds value that parses but whose candidate lies
    outside what [timedelta] and [datetime] can hold makes a
    [RunningMainCycle] notification raise [OverflowError]; [_running] has
    been set to [True], nothing is written and the stored value stays. *)
Theorem overflowing_remaining_raises `{V : MachineStateValues}
    (wd : WasherDryer) (now : Z) (self : Sensor) (r : Z) :
  get_machine_state wd = Some RunningMainCycle →
  py_int (get_attribute wd REMAINING) = Ok r →
  ¬ representable now r →
  update_from_latest_data wd now self = (Raise OverflowError, marked_running self).
Proof.
  intros Hstate Hparse Hrange. rewrite (update_running _ _ _ Hstate).
  unfold new_timestamp_of. rewrite Hparse. unfold timedelta, datetime_add.
  case_bool_decide as Hdelta; [| reflexivity].
  case_bool_decide as Hstamp; [| reflexivity].
  destruct Hrange. by split.
Qed.

Lemma overflowing_remaining_raises_witness :
  let wd := no_flags [(REMAINING, "100000000000000000000")] (Some RunningMainCycle) in
  @update_from_latest_data sample_values wd (seconds 1704067200) mid_cycle
  = (Raise OverflowError, marked_running mid_cycle).
Proof.
  intros wd.
  apply (@overflowing_remaining_raises sample_values wd _ _ 100000000000000000000);
    [reflexivity | vm_compute; reflexivity |].
  intros [[_ Hmax] _]. vm_compute in Hmax. by apply Hmax.
Defined.

(** X7. When the appliance reports a state that is no [MachineState]
    member, the call raises [AttributeError] at [machine_state.value]
    before touching anything: the sensor is exactly as it was. *)
Theorem missing_state_raises `{V : MachineStateValues}
    (wd : WasherDryer) (now : Z) (self : Sensor) :
  get_machine_state wd = None →
  update_from_latest_data wd now self = (Raise AttributeError, self).
Proof. apply update_no_state. Qed.

Lemma missing_state_raises_witness :
  @update_from_latest_data sample_values (no_flags [(REMAINING, "120")] None)
                           (seconds 10) mid_cycle
  = (Raise AttributeError, mid_cycle).
Proof. apply (@missing_state_raises sample_values). reflexivity. Defined.

(** X8. One notification writes at most one state to the host, never
    removes or alters an earlier one, and what it writes is a timestamp
    that is also the sensor's new value. *)
Theorem at_most_one_write `{V : MachineStateValues}
    (wd : WasherDryer) (now : Z) (self : Sensor) :
  let after := (update_from_latest_data wd now self).2 in
  (written after = written self
   ∧ _attr_native_value after = _attr_native_value self)
  ∨ ∃ t, written after = written self ++ [Some (Datetime t)]
         ∧ _attr_native_value after = Some (Datetime t).
Proof. apply write_step. Qed.

(** X9. Over any sequence of notifications the host log only grows: the
    earlier writes stay as a prefix, at most one entry is added per
    notification, and every added entry is a timestamp. *)
Theorem writes_are_timestamps `{V : MachineStateValues}
    (ns : list Notification) (self : Sensor) :
  ∃ new, written (deliver ns self) = written self ++ new
         ∧ (length new ≤ length ns)%nat
         ∧ Forall is_timestamp new.
Proof.
  induction ns as [|n ns IH] using rev_ind.
  - exists []. by rewrite app_nil_r.
  - destruct IH as (new & Hnew & Hlen & Hall).
    rewrite deliver_snoc, length_app. cbn [length]. unfold attr_changed.
    destruct (registered (deliver ns self));
      [| exists new; split; [done |]; split; [lia | done]].
    destruct (write_step (snapshot n) (clock n) (deliver ns self))
      as [[Hsame _] | (t & Hmore & _)].
    + exists new. rewrite Hsame. split; [done |]. split; [lia | done].
    + exists (new ++ [Some (Datetime t)]). rewrite Hmore, Hnew, length_app.
      split; [by rewrite app_assoc |]. split; [cbn; lia |].
      apply Forall_app. split; [done |]. constructor; [by exists t | constructor].
Qed.

(** X10. Once a sensor whose log is still empty has been added to the
    host, its value and the log stay in step under any sequence of
    notifications: either nothing was written yet, or the sensor's value
    is the last state that was written. *)
Theorem value_tracks_last_write `{V : MachineStateValues}
    (restored_data : option SensorExtraStoredData) (ns : list Notification) :
  let added := (async_added_to_hass restored_data __init__).2 in
  let after := deliver ns added in
  written after = [] ∨ last (written after) = Some (_attr_native_value after).
Proof.
  intros added after. apply tracks_deliver.
  subst added. rewrite added_to_hass. by left.
Qed.

(** X11. As long as no notification reports [Complete] or [Standby], the
    timestamps written to the host never flicker: starting from a sensor
    whose log is spaced and in step with its value, any two consecutive
    entries of the log are more than 60 seconds apart. *)
Theorem running_writes_spaced `{V : MachineStateValues}
    (ns : list Notification) (self : Sensor) :
  Forall (λ n, get_machine_state (snapshot n) ≠ Some Complete
               ∧ get_machine_state (snapshot n) ≠ Some Standby) ns →
  spaced (written self) = true →
  tracks self →
  spaced (written (deliver ns self)) = true.
Proof.
  intros Hns Hspaced Htracks.
  induction ns as [|n ns IH] using rev_ind; [done |].
  apply Forall_app in Hns as [Hns Hn]. apply Forall_inv in Hn as [Hcomplete Hstandby].
  specialize (IH Hns). pose proof (tracks_deliver ns self Htracks) as Hstep.
  rewrite deliver_snoc. unfold attr_changed.
  destruct (registered (deliver ns self)); [| done].
  destruct (update_shape (snapshot n) (clock n) (deliver ns self))
    as [-> | [(_ & _ & [Hc | Hs]) | [(-> & _) | (stamp & -> & _ & _ & Hdiff)]]];
    [done | done | done | done |].
  cbn [emitted written]. apply spaced_snoc; [done |].
  intros a Hlast. destruct Hstep as [Hempty | Hvalue].
  - by rewrite Hempty in Hlast.
  - rewrite Hvalue in Hlast. injection Hlast as <-.
    unfold differs_enough in Hdiff. unfold far_apart.
    by destruct (_attr_native_value (deliver ns self)) as [[old|other]|].
Qed.

Lemma running_writes_spaced_witness :
  let running r t := {| snapshot := no_flags [(REMAINING, r)] (Some RunningMainCycle);
                        clock := seconds t |} in
  let ns := [ running "600" 200; running "590" 212; running "500" 230;
              running "soon" 240; running "400" 330 ] in
  spaced (written (@deliver sample_values ns mid_cycle)) = true
  ∧ written (@deliver sample_values ns mid_cycle)
    = [ Some (Datetime (seconds 100)); Some (Datetime (seconds 800));
        Some (Datetime (seconds 730)) ].
Proof.
  intros running ns. split; [| vm_compute; reflexivity].
  apply (@running_writes_spaced sample_values ns mid_cycle).
  - repeat constructor; discriminate.
  - reflexivity.
  - right. reflexivity.
Defined.

(** X12. The end of a cycle is always reported: after any notification in
    [RunningMainCycle], even one that raised because the remaining-seconds
    attribute was missing, malformed or too large, the next notification in
    [Complete] or [Standby] returns normally, writes its own clock reading
    to the host and clears [_running]. *)
Theorem cycle_end_always_reported `{V : MachineStateValues}
    (wd wd' : WasherDryer) (now now' : Z) (self : Sensor) (m : MachineState) :
  get_machine_state wd = Some RunningMainCycle →
  m = Complete ∨ m = Standby →
  get_machine_state wd' = Some m →
  let during := (update_from_latest_data wd now self).2 in
  let out := update_from_latest_data wd' now' during in
  out.1 = Ok ()
  ∧ written out.2 = written during ++ [Some (Datetime now')]
  ∧ _attr_native_value out.2 = Some (Datetime now')
  ∧ _running out.2 = Some false.
Proof.
  intros Hstate Hterminal Hstate' during out. subst out.
  assert (Hm : m ≠ RunningMainCycle) by (destruct Hterminal; subst m; discriminate).
  assert (Hrunning : _running during = Some true).
  { subst during. rewrite (update_running _ _ _ Hstate).
    destruct (new_timestamp_of wd now) as [stamp|e]; [| reflexivity].
    by destruct (differs_enough _ stamp). }
  rewrite (update_not_running _ _ _ m Hstate' Hm), Hrunning.
  rewrite bool_decide_eq_true_2 by done. by cbn.
Qed.

Lemma cycle_end_always_reported_witness :
  let during := (@update_from_latest_data sample_values
                   (no_flags [] (Some RunningMainCycle)) (seconds 10) __init__).2 in
  let out := @update_from_latest_data sample_values
               (no_flags [] (Some Standby)) (seconds 70) during in
  out.1 = Ok ()
  ∧ written out.2 = written during ++ [Some (Datetime (seconds 70))]
  ∧ _attr_native_value out.2 = Some (Datetime (seconds 70))
  ∧ _running out.2 = Some false.
Proof.
  apply (@cycle_end_always_reported sample_values _ _ _ _ _ Standby);
    [reflexivity | right; reflexivity | reflexivity].
Defined.

(** X13. A stored value that is no [datetime] is never replaced by the
    running branch: whatever the remaining-seconds attribute says, a
    [RunningMainCycle] notification writes nothing and keeps that value. *)
Theorem non_datetime_value_kept `{V : MachineStateValues}
    (wd : WasherDryer) (now : Z) (self : Sensor) (repr : string) :
  get_machine_state wd = Some RunningMainCycle →
  _attr_native_value self = Some (NotDatetime repr) →
  (update_from_latest_data wd now self).2 = marked_running self.
Proof.
  intros Hstate Hvalue. rewrite (update_running _ _ _ Hstate).
  destruct (new_timestamp_of wd now) as [stamp|e]; [| reflexivity].
  by rewrite Hvalue.
Qed.

Lemma non_datetime_value_kept_witness :
  let self := {| _running := None;
                 _attr_native_value := Some (NotDatetime "unavailable");
                 written := [];
                 registered := true |} in
  (@update_from_latest_data sample_values
     (no_flags [(REMAINING, "3600")] (Some RunningMainCycle)) (seconds 10) self).2
  = marked_running self.
Proof.
  intros self.
  apply (@non_datetime_value_kept sample_values _ _ self "unavailable");
    reflexivity.
Defined.

(** X14. Removing the sensor from the host unregisters the callback and
    changes nothing else; from then on notifications no longer reach the
    sensor, so its value, flag and log stay as they were at removal. *)
Theorem removed_sensor_is_deaf `{V : MachineStateValues}
    (ns : list Notification) (self : Sensor) :
  let out := async_will_remove_from_hass self in
  out.1 = Ok ()
  ∧ registered out.2 = false
  ∧ _running out.2 = _running self
  ∧ _attr_native_value out.2 = _attr_native_value self
  ∧ written out.2 = written self
  ∧ deliver ns out.2 = out.2.
Proof.
  intros out. subst out. cbn. repeat split.
  by apply unregistered_ignores.
Qed.

(** X15. A machine state other than [RunningMainCycle], [Complete] and
    [Standby] (a pause, a delay, a post-cycle phase) leaves the sensor
    exactly as it was, also in the middle of a cycle. *)
Theorem other_states_inert `{V : MachineStateValues}
    (wd : WasherDryer) (now : Z) (self : Sensor) (m : MachineState) :
  get_machine_state wd = Some m →
  m ≠ RunningMainCycle → m ≠ Complete → m ≠ Standby →
  update_from_latest_data wd now self = (Ok (), self).
Proof.
  intros Hstate Hrunning Hcomplete Hstandby.
  rewrite (update_not_running _ _ _ m Hstate Hrunning).
  rewrite bool_decide_eq_false_2 by (intros [|]; done). reflexivity.
Qed.

Lemma other_states_inert_witness :
  @update_from_latest_data sample_values (no_flags [(REMAINING, "50")] (Some Pause))
                           (seconds 400) mid_cycle
  = (Ok (), mid_cycle).
Proof.
  apply (@other_states_inert sample_values _ _ _ Pause); [reflexivity | discriminate..].
Defined.

(** ** Properties of the entities and of the platform setup *)

Lemma chars_app (s t : string) : chars (s +:+ t) = chars s ++ chars t.
Proof.
  unfold chars. induction s as [|c s IH]; [done |].
  change (String c s +:+ t) with (String c (s +:+ t)).
  cbn [String.list_ascii_of_string]. by rewrite IH.
Qed.

Lemma chars_inj (s t : string) : chars s = chars t → s = t.
Proof.
  unfold chars. intros Heq.
  rewrite <- (String.string_of_list_ascii_of_string s),
          <- (String.string_of_list_ascii_of_string t).
  by rewrite Heq.
Qed.

(** A [-key] ending settles the key, for keys none of whose endings is the
    tail of another's. *)
Lemma unique_id_of_inj (keys : list string) (said1 said2 key1 key2 : string) :
  (∀ k1 k2, k1 ∈ keys → k2 ∈ keys →
            chars ("-" +:+ k1) `suffix_of` chars ("-" +:+ k2) → k1 = k2) →
  key1 ∈ keys → key2 ∈ keys →
  unique_id_of said1 key1 = unique_id_of said2 key2 →
  said1 = said2 ∧ key1 = key2.
Proof.
  intros Hkeys Hk1 Hk2 Hid. unfold unique_id_of in Hid.
  apply (f_equal chars) in Hid.
  rewrite (chars_app said1), (chars_app said2) in Hid.
  set (t1 := chars ("-" +:+ key1)) in *. set (t2 := chars ("-" +:+ key2)) in *.
  assert (Hkey : key1 = key2).
  { destruct (suffix_weak_total t1 t2 (chars said1 ++ t1)) as [Hsuf | Hsuf].
    - by exists (chars said1).
    - exists (chars said2). by rewrite Hid.
    - by apply Hkeys.
    - symmetry. by apply Hkeys. }
  split; [| done]. subst key2. subst t1 t2.
  apply app_inv_tail in Hid. by apply chars_inj.
Qed.

Lemma keys_not_nested (k1 k2 : string) :
  k1 ∈ washer_keys ++ aircon_keys → k2 ∈ washer_keys ++ aircon_keys →
  chars ("-" +:+ k1) `suffix_of` chars ("-" +:+ k2) → k1 = k2.
Proof.
  intros H1 H2. vm_compute in H1, H2.
  elem_cases H1; subst k1; elem_cases H2; subst k2; intros Hsuf;
    first [reflexivity | exfalso; revert Hsuf; by_computation].
Qed.

Lemma foldl_extend {A B} (step : list A → B → list A) (g : B → list A)
    (entities : list A) (l : list B) :
  (∀ acc x, step acc x = acc ++ g x) →
  foldl step entities l = entities ++ (l ≫= g).
Proof.
  intros Hstep. revert entities.
  induction l as [|x l IH]; intros entities; cbn; [by rewrite app_nil_r |].
  by rewrite IH, Hstep, <- app_assoc.
Qed.

Lemma foldl_append {A B} (f : B → A) (entities : list A) (l : list B) :
  foldl (λ entities x, append entities (f x)) entities l = entities ++ (f <$> l).
Proof.
  revert entities.
  induction l as [|x l IH]; intros entities; cbn; [by rewrite app_nil_r |].
  rewrite IH. unfold append. by rewrite <- app_assoc.
Qed.

Lemma ids_for_cons (keys : list string) (said : string) (saids : list string) :
  ids_for keys (said :: saids) = (unique_id_of said <$> keys) ++ ids_for keys saids.
Proof. reflexivity. Qed.

Lemma elem_of_ids_for (keys saids : list string) (id : string) :
  id ∈ ids_for keys saids
  ↔ ∃ said key, said ∈ saids ∧ key ∈ keys ∧ id = unique_id_of said key.
Proof.
  unfold ids_for. rewrite list_elem_of_bind. split.
  - intros (said & Hid & Hsaid). apply list_elem_of_fmap in Hid as (key & -> & Hkey).
    by exists said, key.
  - intros (said & key & Hsaid & Hkey & ->). exists said. split; [| done].
    apply list_elem_of_fmap. by exists key.
Qed.

Lemma ids_for_NoDup (keys saids : list string) :
  keys ⊆ washer_keys ++ aircon_keys →
  NoDup keys → NoDup saids → NoDup (ids_for keys saids).
Proof.
  intros Hsub Hkeys Hsaids.
  assert (Hinj : ∀ s1 s2 k1 k2, k1 ∈ keys → k2 ∈ keys →
                   unique_id_of s1 k1 = unique_id_of s2 k2 → s1 = s2 ∧ k1 = k2).
  { intros s1 s2 k1 k2 Hk1 Hk2.
    apply (unique_id_of_inj (washer_keys ++ aircon_keys));
      [apply keys_not_nested | by apply Hsub..]. }
  unfold ids_for. apply NoDup_bind; [| | done].
  - intros s1 s2 id _ _ H1 H2.
    apply list_elem_of_fmap in H1 as (k1 & -> & Hk1).
    apply list_elem_of_fmap in H2 as (k2 & Heq & Hk2).
    by destruct (Hinj s1 s2 k1 k2 Hk1 Hk2 Heq).
  - intros s _. apply NoDup_fmap_2_strong; [| done].
    intros k1 k2 Hk1 Hk2 Heq. by destruct (Hinj s s k1 k2 Hk1 Hk2 Heq).
Qed.

Lemma ids_for_NoDup_inv (keys saids : list string) :
  keys ≠ [] → NoDup (ids_for keys saids) → NoDup saids.
Proof.
  intros Hkeys. destruct keys as [|key keys]; [done |]. clear Hkeys.
  induction saids as [|said saids IH]; intros Hids; [constructor |].
  rewrite ids_for_cons in Hids. apply NoDup_app in Hids as (_ & Hdisjoint & Hrest).
  apply NoDup_cons. split; [| by apply IH].
  intros Hin. apply (Hdisjoint (unique_id_of said key)); [left |].
  apply elem_of_ids_for. exists said, key. split; [done |]. split; [left | done].
Qed.

Section Setup.

Context `{E : Environment} {Reading : Type}.
Implicit Types (washer_dryers : list Appliance.WasherDryerObject)
               (aircons : list (Aircon.Aircon Reading)).

Lemma setup_entities washer_dryers aircons :
  async_setup_entry washer_dryers aircons
  = (washer_dryers ≫= washer_entities) ++ (aircons ≫= aircon_entities).
Proof.
  unfold async_setup_entry.
  rewrite (foldl_extend _ aircon_entities);
    [| intros acc a; apply foldl_append].
  f_equal.
  rewrite (foldl_extend _ washer_entities); [done |].
  intros acc w. rewrite !foldl_append. unfold washer_entities.
  by rewrite app_assoc.
Qed.

Lemma setup_unique_ids washer_dryers aircons :
  unique_id <$> async_setup_entry washer_dryers aircons
  = ids_for washer_keys (Appliance.said <$> washer_dryers)
    ++ ids_for aircon_keys (Aircon.said <$> aircons).
Proof.
  rewrite setup_entities, fmap_app. f_equal.
  - induction washer_dryers as [|w ws IH]; [done |].
    cbn [mbind list_bind fmap list_fmap]. rewrite fmap_app, IH. by rewrite ids_for_cons.
  - induction aircons as [|a acs IH]; [done |].
    cbn [mbind list_bind fmap list_fmap]. rewrite fmap_app, IH. by rewrite ids_for_cons.
Qed.

End Setup.

(** X16. The unique ids of the entities that [async_setup_entry] creates
    are pairwise distinct exactly when no two washer/dryers share a [said]
    and no two air conditioners share a [said]; a washer/dryer and an air
    conditioner may share one. *)
Theorem unique_ids_distinct `{E : Environment} {Reading : Type}
    (washer_dryers : list Appliance.WasherDryerObject)
    (aircons : list (Aircon.Aircon Reading)) :
  NoDup (unique_id <$> async_setup_entry washer_dryers aircons)
  ↔ NoDup (Appliance.said <$> washer_dryers) ∧ NoDup (Aircon.said <$> aircons).
Proof.
  rewrite setup_unique_ids, NoDup_app. split.
  - intros (Hw & _ & Ha). split.
    + by apply (ids_for_NoDup_inv washer_keys).
    + by apply (ids_for_NoDup_inv aircon_keys).
  - intros [Hw Ha]. split; [| split].
    + apply ids_for_NoDup; [| by_computation | done].
      intros k Hk. apply elem_of_app. by left.
    + intros id H1 H2.
      apply elem_of_ids_for in H1 as (s1 & k1 & _ & Hk1 & ->).
      apply elem_of_ids_for in H2 as (s2 & k2 & _ & Hk2 & Heq).
      destruct (unique_id_of_inj (washer_keys ++ aircon_keys) s1 s2 k1 k2)
        as [_ ->]; [apply keys_not_nested | | | done |].
      * apply elem_of_app. by left.
      * apply elem_of_app. by right.
      * vm_compute in Hk1, Hk2.
        elem_cases Hk1; subst k2; elem_cases Hk2; discriminate Hk2.
    + apply ids_for_NoDup; [| by_computation | done].
      intros k Hk. apply elem_of_app. by right.
Qed.

Lemma unique_ids_distinct_witness :
  NoDup (unique_id <$> @async_setup_entry sample_environment Z
                         [sample_washer; sample_dryer] [sample_aircon])
  ∧ ¬ NoDup (unique_id <$> @async_setup_entry sample_environment Z
                             [sample_washer; sample_washer] []).
Proof.
  split.
  - apply (@unique_ids_distinct sample_environment Z). split; by_computation.
  - intros Hids. apply (@unique_ids_distinct sample_environment Z) in Hids as [Hw _].
    revert Hw. by_computation.
Defined.

(** X17. [async_setup_entry] hands the host, appliance by appliance, the
    state, tank and time sensors of every washer/dryer and then the
    temperature and humidity sensors of every air conditioner: three
    entities per washer/dryer and two per air conditioner, with the unique
    ids [said-key]. *)
Theorem setup_entry_entities `{E : Environment} {Reading : Type}
    (washer_dryers : list Appliance.WasherDryerObject)
    (aircons : list (Aircon.Aircon Reading)) :
  unique_id <$> async_setup_entry washer_dryers aircons
  = (washer_dryers ≫= λ w,
       [ Appliance.said w +:+ "-state";
         Appliance.said w +:+ "-DispenseLevel";
         Appliance.said w +:+ "-timeremaining" ])
    ++ (aircons ≫= λ a,
          [ Aircon.said a +:+ "-current_temperature";
            Aircon.said a +:+ "-current_humidity" ])
  ∧ length (async_setup_entry washer_dryers aircons)
    = (3 * length washer_dryers + 2 * length aircons)%nat.
Proof.
  split.
  - rewrite setup_unique_ids. f_equal.
    + induction washer_dryers as [|w ws IH]; [done |].
      cbn [fmap list_fmap]. rewrite ids_for_cons, IH. reflexivity.
    + induction aircons as [|a acs IH]; [done |].
      cbn [fmap list_fmap]. rewrite ids_for_cons, IH. reflexivity.
  - rewrite setup_entities, length_app. f_equal.
    + induction washer_dryers as [|w ws IH]; [done |].
      cbn [mbind list_bind length]. rewrite length_app, IH. cbn. lia.
    + induction aircons as [|a acs IH]; [done |].
      cbn [mbind list_bind length]. rewrite length_app, IH. cbn. lia.
Qed.

(** X18. Every description in [AIRCON_SENSORS] is served by one of the two
    readings: an [AirConSensor] built with the temperature description
    returns [get_current_temp()], one built with the humidity description
    returns [get_current_humidity()]; with any other key the value is
    [None]. *)
Theorem aircon_native_value_by_key `{E : Environment} {Reading : Type}
    (aircon : Aircon.Aircon Reading) (d : Description.SensorEntityDescription) :
  (d ∈ AIRCON_SENSORS →
   AirConSensor.native_value (AirConSensor.__init__ aircon d)
   = match Description.device_class d with
     | TEMPERATURE => Aircon.get_current_temp aircon
     | _ => Aircon.get_current_humidity aircon
     end)
  ∧ (Description.key d ∉ aircon_keys →
     AirConSensor.native_value (AirConSensor.__init__ aircon d) = None).
Proof.
  split.
  - intros Hd. unfold AIRCON_SENSORS in Hd. elem_cases Hd; subst d; reflexivity.
  - intros Hkey. unfold AirConSensor.native_value, AirConSensor.__init__.
    cbn [AirConSensor.entity_description AirConSensor._aircon].
    rewrite !bool_decide_eq_false_2; [done | |];
      intros Heq; apply Hkey; rewrite Heq; by_computation.
Qed.

Lemma aircon_native_value_by_key_witness :
  match AIRCON_SENSORS with
  | [temperature; humidity] =>
      AirConSensor.native_value
        (@AirConSensor.__init__ sample_environment Z sample_aircon temperature)
      = Some 21
      ∧ AirConSensor.native_value
          (@AirConSensor.__init__ sample_environment Z sample_aircon humidity)
        = None
  | _ => False
  end.
Proof.
  cbv beta iota delta [AIRCON_SENSORS]. split.
  - destruct (@aircon_native_value_by_key sample_environment Z sample_aircon
                {| Description.key := "current_temperature";
                   Description.translation_key := None;
                   Description.name := Some "Current Temperature";
                   Description.device_class := TEMPERATURE;
                   Description.state_class := Some MEASUREMENT;
                   Description.native_unit_of_measurement := Some CELSIUS |})
      as [Hvalue _].
    rewrite Hvalue; [reflexivity | left].
  - destruct (@aircon_native_value_by_key sample_environment Z sample_aircon
                {| Description.key := "current_humidity";
                   Description.translation_key := None;
                   Description.name := Some "Current Humidity";
                   Description.device_class := HUMIDITY;
                   Description.state_class := Some MEASUREMENT;
                   Description.native_unit_of_measurement := Some PERCENTAGE |})
      as [Hvalue _].
    rewrite Hvalue; [reflexivity | right; left].
Defined.

(** X19. The device name of an air conditioner falls back to its [said]
    when the appliance has no name or an empty one, so the name shown is
    empty only if the [said] itself is empty. *)
Theorem aircon_device_name_fallback `{E : Environment} {Reading : Type}
    (aircon : Aircon.Aircon Reading) (d : Description.SensorEntityDescription) :
  let shown := DeviceInfo.name (AirConSensor._attr_device_info
                                  (AirConSensor.__init__ aircon d)) in
  (Aircon.name aircon = None ∨ Aircon.name aircon = Some "" → shown = Aircon.said aircon)
  ∧ (shown = "" → Aircon.said aircon = "").
Proof.
  intros shown. subst shown. cbn. split.
  - intros [-> | ->]; reflexivity.
  - destruct (Aircon.name aircon) as [text|]; [| done].
    case_bool_decide; [done |]. intros ->. done.
Qed.

Lemma aircon_device_name_fallback_witness :
  DeviceInfo.name (AirConSensor._attr_device_info
                     (@AirConSensor.__init__ sample_environment Z sample_aircon
                        {| Description.key := "current_humidity";
                           Description.translation_key := None;
                           Description.name := Some "Current Humidity";
                           Description.device_class := HUMIDITY;
                           Description.state_class := Some MEASUREMENT;
                           Description.native_unit_of_measurement := Some PERCENTAGE |}))
  = "AC-1".
Proof.
  apply (@aircon_device_name_fallback sample_environment Z sample_aircon).
  right. reflexivity.
Defined.
